(** * TwinCAT MCP server: a shallow embedding of [mcp-server/server.py]

    The server wraps the command line tool TcAutomation.exe: it locates the
    executable, builds an argument vector from the arguments of a tool call,
    runs the executable under a timeout, reads its standard output as one
    JSON document and renders that document as text.

    The embedding keeps the structure of the Python module.  Python values
    are an inductive type, exceptions are values of an error monad, and the
    three things the module does to its surroundings (probing the file
    system, spawning the process, parsing JSON) are calls to the oracles of
    a [World], each recorded in an event trace. *)

From Stdlib Require Import String Ascii List ZArith Bool Lia DecimalString.
Import ListNotations.
Local Open Scope list_scope.
Local Open Scope string_scope.
Set Warnings "-register-all".

(** ** Python values *)

Module Py.

(** A float is observed by the program only through its truth value and
    its printed form, so it is represented by these two observations. *)
Record pyfloat := mkFloat { float_nonzero : bool; float_repr : string }.

(** The values [json.loads] can return and the values a tool call can
    carry.  A dict is kept as its entries in insertion order; its keys are
    strings (they come from JSON objects) and a lookup takes the first
    entry with the key. *)
Inductive pyval :=
| PyNone
| PyBool (b : bool)
| PyInt (n : Z)
| PyFloat (f : pyfloat)
| PyStr (s : string)
| PyList (items : list pyval)
| PyDict (entries : list (string * pyval)).

Definition dict := list (string * pyval).

(** Exception classes the module raises, catches or lets through.  Every
    class here derives from [Exception]. *)
Inductive exn_class :=
| FileNotFoundError
| TimeoutExpired
| JSONDecodeError
| AttributeError
| TypeError
| KeyError
| OtherException (name : string).

(** An exception instance: its class and [str(e)]. *)
Record exn := mkExn { exn_type : exn_class; exn_str : string }.

(** The outcome of evaluating a Python expression. *)
Inductive outcome (A : Type) :=
| Return (a : A)
| Raise (e : exn).
Arguments Return {A} a.
Arguments Raise {A} e.

Definition rbind {A B} (m : outcome A) (k : A -> outcome B) : outcome B :=
  match m with
  | Return a => k a
  | Raise e => Raise e
  end.

Definition nl : string := String (ascii_of_nat 10) EmptyString.

(** [type(v).__name__] *)
Definition type_name (v : pyval) : string :=
  match v with
  | PyNone => "NoneType"
  | PyBool _ => "bool"
  | PyInt _ => "int"
  | PyFloat _ => "float"
  | PyStr _ => "str"
  | PyList _ => "list"
  | PyDict _ => "dict"
  end.

(** [bool(v)] *)
Definition truthy (v : pyval) : bool :=
  match v with
  | PyNone => false
  | PyBool b => b
  | PyInt n => negb (n =? 0)%Z
  | PyFloat f => float_nonzero f
  | PyStr s => negb (s =? "")
  | PyList items => match items with [] => false | _ :: _ => true end
  | PyDict entries => match entries with [] => false | _ :: _ => true end
  end.

Fixpoint dict_lookup (key : string) (d : dict) : option pyval :=
  match d with
  | [] => None
  | (k, v) :: rest => if k =? key then Some v else dict_lookup key rest
  end.

(** [d.get(key, default)] on a dict *)
Definition dict_get (d : dict) (key : string) (default : pyval) : pyval :=
  match dict_lookup key d with
  | Some v => v
  | None => default
  end.

(** [v.get(key, default)] on any value: only a dict has the method. *)
Definition py_get (v : pyval) (key : string) (default : pyval) : outcome pyval :=
  match v with
  | PyDict d => Return (dict_get d key default)
  | _ => Raise (mkExn AttributeError
                  ("'" ++ type_name v ++ "' object has no attribute 'get'"))
  end.

(** ** Text: strings are kept as their UTF-8 bytes *)

Definition is_continuation (c : ascii) : bool :=
  let n := nat_of_ascii c in (128 <=? n)%nat && (n <? 192)%nat.

(** The characters (code points) of a string, each as its own bytes. *)
Fixpoint utf8_chars (s : string) : list string :=
  match s with
  | EmptyString => []
  | String c rest =>
      let chunks := utf8_chars rest in
      match rest, chunks with
      | String d _, chunk :: more =>
          if is_continuation d then String c chunk :: more
          else String c EmptyString :: chunks
      | _, _ => String c EmptyString :: chunks
      end
  end.

Definition byte_str (n : N) : string :=
  String (ascii_of_N n) EmptyString.

Definition utf8_encode (cp : N) : string :=
  (if cp <? 128 then byte_str cp
   else if cp <? 2048 then
     byte_str (192 + cp / 64) ++ byte_str (128 + cp mod 64)
   else if cp <? 65536 then
     byte_str (224 + cp / 4096) ++ byte_str (128 + (cp / 64) mod 64)
       ++ byte_str (128 + cp mod 64)
   else
     byte_str (240 + cp / 262144) ++ byte_str (128 + (cp / 4096) mod 64)
       ++ byte_str (128 + (cp / 64) mod 64) ++ byte_str (128 + cp mod 64))%N.

(** The code points [str.strip()] removes: those with [str.isspace()]. *)
Definition whitespace_code_points : list N :=
  [9; 10; 11; 12; 13; 28; 29; 30; 31; 32; 133; 160; 5760;
   8192; 8193; 8194; 8195; 8196; 8197; 8198; 8199; 8200; 8201; 8202;
   8232; 8233; 8239; 8287; 12288]%N.

Definition py_isspace (ch : string) : bool :=
  existsb (String.eqb ch) (map utf8_encode whitespace_code_points).

Fixpoint lstrip_chars (chars : list string) : list string :=
  match chars with
  | [] => []
  | ch :: rest => if py_isspace ch then lstrip_chars rest else chars
  end.

(** [s.strip()] *)
Definition py_strip (s : string) : string :=
  String.concat ""
    (rev (lstrip_chars (rev (lstrip_chars (utf8_chars s))))).

Definition string_of_Z (n : Z) : string :=
  NilZero.string_of_int (Z.to_int n).

(** [for x in v]: the items a loop over [v] visits. *)
Definition py_iter (v : pyval) : outcome (list pyval) :=
  match v with
  | PyList items => Return items
  | PyDict entries => Return (map (fun kv => PyStr (fst kv)) entries)
  | PyStr s => Return (map PyStr (utf8_chars s))
  | _ => Raise (mkExn TypeError
                  ("'" ++ type_name v ++ "' object is not iterable"))
  end.

(** [v[key]] with a string key.  The keys the module subscripts with are
    plain identifiers, whose [repr] is the key between single quotes. *)
Definition py_getitem (v : pyval) (key : string) : outcome pyval :=
  match v with
  | PyDict d =>
      match dict_lookup key d with
      | Some x => Return x
      | None => Raise (mkExn KeyError ("'" ++ key ++ "'"))
      end
  | PyStr _ =>
      Raise (mkExn TypeError "string indices must be integers, not 'str'")
  | PyList _ =>
      Raise (mkExn TypeError
               "list indices must be integers or slices, not str")
  | _ => Raise (mkExn TypeError
                  ("'" ++ type_name v ++ "' object is not subscriptable"))
  end.

Fixpoint join_items (i : nat) (items : list pyval) : outcome (list string) :=
  match items with
  | [] => Return []
  | PyStr s :: rest => rbind (join_items (S i) rest) (fun l => Return (s :: l))
  | x :: _ =>
      Raise (mkExn TypeError
               ("sequence item " ++ string_of_Z (Z.of_nat i)
                  ++ ": expected str instance, " ++ type_name x ++ " found"))
  end.

(** [sep.join(v)] *)
Definition py_join (sep : string) (v : pyval) : outcome string :=
  match py_iter v with
  | Return items =>
      rbind (join_items 0 items) (fun l => Return (String.concat sep l))
  | Raise _ => Raise (mkExn TypeError "can only join an iterable")
  end.

End Py.
Export Py.

(** ** The surroundings of the module *)

(** A [pathlib.Path] as the module builds it: from [__file__], by [.parent]
    and by [/].  What such a path prints as and whether it exists is for
    the [World] to say. *)
Inductive Path :=
| ScriptFile
| Parent (p : Path)
| Join (p : Path) (name : string).

Declare Scope path_scope.
Delimit Scope path_scope with path.
Bind Scope path_scope with Path.
Infix "/" := Join : path_scope.

(** What [subprocess.run(..., capture_output=True, text=True)] returns. *)
Record CompletedProcess := mkCompleted {
  returncode : Z;
  stdout : string;
  stderr : string }.

(** Everything outside the module: the file system, the process spawner
    and the library functions that are taken as given. *)
Record World := mkWorld {
  (** [str(p)] *)
  path_str : Path -> string;
  (** [p.exists()]: yes or no, or the [OSError] it lets through (it
      answers no only for a path that is not there; a directory that may
      not be read makes it raise [PermissionError]) *)
  path_exists : Path -> outcome bool;
  (** [subprocess.run(cmd, capture_output=True, text=True, timeout=t, cwd=d)] *)
  subprocess_run : list pyval -> Z -> string -> outcome CompletedProcess;
  (** [json.loads(s)] *)
  json_loads : string -> outcome pyval;
  (** [repr(s)] of a string *)
  repr_str : string -> string }.

(** The calls the module makes to its surroundings. *)
Inductive event :=
| Probe (p : Path)
| Spawn (cmd : list pyval) (timeout : Z) (cwd : string)
| Loads (s : string).

(** A computation: its outcome and the calls it made, in order. *)
Definition M (A : Type) : Type := outcome A * list event.

Definition ret {A} (a : A) : M A := (Return a, []).

Definition raise {A} (e : exn) : M A := (Raise e, []).

Definition bind {A B} (m : M A) (k : A -> M B) : M B :=
  match m with
  | (Return a, t) => let (r, t') := k a in (r, (t ++ t')%list)
  | (Raise e, t) => (Raise e, t)
  end.

(** A pure expression inside a computation. *)
Definition lift {A} (r : outcome A) : M A := (r, []).

(** [try: body  except ...: handler].  The handler answers [None] for an
    exception no clause matches, which then goes on outward. *)
Definition try_except {A} (body : M A) (handler : exn -> option (M A)) : M A :=
  match body with
  | (Return a, t) => (Return a, t)
  | (Raise e, t) =>
      match handler e with
      | Some h => let (r, t') := h in (r, (t ++ t')%list)
      | None => (Raise e, t)
      end
  end.

Definition outcome_of {A} (m : M A) : outcome A := fst m.
Definition trace {A} (m : M A) : list event := snd m.

Declare Scope m_scope.
Delimit Scope m_scope with M.
Notation "x <- m ;; k" := (bind m (fun x => k))
  (at level 100, m at next level, right associativity) : m_scope.
Notation "x <~ m ;; k" := (rbind m (fun x => k))
  (at level 100, m at next level, right associativity) : m_scope.
Local Open Scope m_scope.

(** ** The module *)

Section Server.

Variable W : World.

(** [repr(v)] *)
Fixpoint py_repr (v : pyval) : string :=
  match v with
  | PyNone => "None"
  | PyBool true => "True"
  | PyBool false => "False"
  | PyInt n => string_of_Z n
  | PyFloat f => float_repr f
  | PyStr s => repr_str W s
  | PyList items => "[" ++ String.concat ", " (map py_repr items) ++ "]"
  | PyDict entries =>
      "{" ++ String.concat ", "
               (map (fun kv => match kv with
                               | (k, x) => repr_str W k ++ ": " ++ py_repr x
                               end) entries) ++ "}"
  end.

(** [str(v)], which is what an f-string field prints. *)
Definition py_str (v : pyval) : string :=
  match v with
  | PyStr s => s
  | _ => py_repr v
  end.

Definition exists_ (p : Path) : M bool :=
  (path_exists W p, [Probe p]).

Definition run (cmd : list pyval) (timeout : Z) (cwd : string)
  : M CompletedProcess :=
  (subprocess_run W cmd timeout cwd, [Spawn cmd timeout cwd]).

Definition loads (s : string) : M pyval :=
  (json_loads W s, [Loads s]).

Definition SCRIPT_DIR : Path := Parent ScriptFile.

Definition TC_AUTOMATION_EXE : Path :=
  (Parent SCRIPT_DIR / "TcAutomation" / "bin" / "Release"
     / "TcAutomation.exe")%path.

Definition TC_AUTOMATION_PATHS : list Path :=
  [ (Parent SCRIPT_DIR / "TcAutomation" / "bin" / "Release"
       / "TcAutomation.exe")%path;
    (Parent SCRIPT_DIR / "TcAutomation" / "bin" / "Debug"
       / "TcAutomation.exe")%path;
    (Parent SCRIPT_DIR / "TcAutomation" / "bin" / "Release"
       / "net8.0-windows" / "TcAutomation.exe")%path;
    (Parent SCRIPT_DIR / "TcAutomation" / "publish"
       / "TcAutomation.exe")%path ].

(** The loop of [find_tc_automation_exe]: the first path that exists. *)
Fixpoint first_existing (paths : list Path) : M (option Path) :=
  match paths with
  | [] => ret None
  | path :: rest =>
      found <- exists_ path ;;
      if found then ret (Some path) else first_existing rest
  end.

Definition not_found_message : string :=
  "TcAutomation.exe not found. Searched paths:" ++ nl
    ++ String.concat nl
         (map (fun p => "  - " ++ path_str W p) TC_AUTOMATION_PATHS)
    ++ nl ++ nl ++ "Please build the TcAutomation project first:" ++ nl
    ++ "  .\scripts\build.ps1".

Definition find_tc_automation_exe : M Path :=
  found <- first_existing TC_AUTOMATION_PATHS ;;
  match found with
  | Some path => ret path
  | None => raise (mkExn FileNotFoundError not_found_message)
  end.

(** [a or b] *)
Definition py_or (a b : pyval) : pyval := if truthy a then a else b.

Definition run_tc_automation (command : string) (args : list pyval)
  : M pyval :=
  exe_path <- find_tc_automation_exe ;;
  let cmd := ([PyStr (path_str W exe_path); PyStr command] ++ args)%list in
  try_except
    (result <- run cmd 300 (path_str W (Parent exe_path)) ;;
     if truthy (PyStr (py_strip (stdout result))) then
       try_except
         (loads (stdout result))
         (fun e =>
            match exn_type e with
            | JSONDecodeError =>
                Some (ret (PyDict
                  [ ("success", PyBool false);
                    ("errorMessage",
                     PyStr ("Invalid JSON output: " ++ stdout result));
                    ("stderr", PyStr (stderr result)) ]))
            | _ => None
            end)
     else
       ret (PyDict
         [ ("success", PyBool false);
           ("errorMessage",
            py_or (PyStr (stderr result))
                  (PyStr "No output from TcAutomation.exe")) ]))
    (fun e =>
       match exn_type e with
       | TimeoutExpired =>
           Some (ret (PyDict
             [ ("success", PyBool false);
               ("errorMessage", PyStr "Command timed out after 5 minutes") ]))
       | _ =>
           Some (ret (PyDict
             [ ("success", PyBool false);
               ("errorMessage", PyStr (exn_str e)) ]))
       end).


(** *** The tool catalog *)

Record Property := mkProperty {
  prop_type : string;
  prop_description : string;
  prop_default : option pyval }.

Record Schema := mkSchema {
  schema_type : string;
  properties : list (string * Property);
  required : list string }.

Record Tool := mkTool {
  name : string;
  description : string;
  inputSchema : Schema }.

Definition solutionPath_property : string * Property :=
  ("solutionPath",
   mkProperty "string" "Full path to the TwinCAT .sln file" None).

Definition tcVersion_property (text : string) : string * Property :=
  ("tcVersion", mkProperty "string" text None).

Definition list_tools : list Tool :=
  [ mkTool "twincat_build"
      "Build a TwinCAT solution and return any compile errors or warnings. Use this to validate TwinCAT/PLC code changes."
      (mkSchema "object"
         [ solutionPath_property;
           ("clean",
            mkProperty "boolean"
              "Clean solution before building (default: true)"
              (Some (PyBool true)));
           tcVersion_property
             "Force specific TwinCAT version (e.g., '3.1.4026.17'). Optional." ]
         [ "solutionPath" ]);
    mkTool "twincat_get_info"
      "Get information about a TwinCAT solution including version, PLC projects, and configuration."
      (mkSchema "object" [ solutionPath_property ] [ "solutionPath" ]);
    mkTool "twincat_clean"
      "Clean a TwinCAT solution (remove build artifacts)."
      (mkSchema "object"
         [ solutionPath_property;
           tcVersion_property "Force specific TwinCAT version. Optional." ]
         [ "solutionPath" ]);
    mkTool "twincat_set_target"
      "Set the target AMS Net ID for deployment without activating."
      (mkSchema "object"
         [ solutionPath_property;
           ("amsNetId",
            mkProperty "string"
              "Target AMS Net ID (e.g., '5.22.157.86.1.1')" None);
           tcVersion_property "Force specific TwinCAT version. Optional." ]
         [ "solutionPath"; "amsNetId" ]);
    mkTool "twincat_activate"
      "Activate TwinCAT configuration on the target PLC. This downloads the configuration to the target."
      (mkSchema "object"
         [ solutionPath_property;
           ("amsNetId",
            mkProperty "string"
              "Target AMS Net ID. Optional - uses project default if not specified."
              None);
           tcVersion_property "Force specific TwinCAT version. Optional." ]
         [ "solutionPath" ]);
    mkTool "twincat_restart"
      "Restart TwinCAT runtime on the target PLC."
      (mkSchema "object"
         [ solutionPath_property;
           ("amsNetId",
            mkProperty "string"
              "Target AMS Net ID. Optional - uses project default if not specified."
              None);
           tcVersion_property "Force specific TwinCAT version. Optional." ]
         [ "solutionPath" ]);
    mkTool "twincat_deploy"
      "Full deployment workflow: build solution, activate boot project, activate configuration, and restart TwinCAT on target PLC."
      (mkSchema "object"
         [ solutionPath_property;
           ("amsNetId",
            mkProperty "string"
              "Target AMS Net ID (e.g., '5.22.157.86.1.1')" None);
           ("plcName",
            mkProperty "string"
              "Deploy only this PLC project. Optional - deploys all PLCs if not specified."
              None);
           tcVersion_property "Force specific TwinCAT version. Optional.";
           ("skipBuild",
            mkProperty "boolean"
              "Skip building the solution (default: false)"
              (Some (PyBool false)));
           ("dryRun",
            mkProperty "boolean"
              "Show what would be done without making changes (default: false)"
              (Some (PyBool false))) ]
         [ "solutionPath"; "amsNetId" ]) ].

(** *** Argument vectors

    Each definition is the part of the tool's branch of [call_tool] that
    reads the arguments and fills [args]. *)

(** [if cond: args.extend(more)] *)
Definition extend_if (cond : pyval) (more args : list pyval) : list pyval :=
  if truthy cond then (args ++ more)%list else args.

Definition build_args (arguments : dict) : list pyval :=
  let solution_path := dict_get arguments "solutionPath" (PyStr "") in
  let clean := dict_get arguments "clean" (PyBool true) in
  let tc_version := dict_get arguments "tcVersion" PyNone in
  let args := [PyStr "--solution"; solution_path] in
  let args := extend_if clean [PyStr "--clean"] args in
  let args := extend_if tc_version [PyStr "--tcversion"; tc_version] args in
  args.

Definition get_info_args (arguments : dict) : list pyval :=
  let solution_path := dict_get arguments "solutionPath" (PyStr "") in
  [PyStr "--solution"; solution_path].

Definition clean_args (arguments : dict) : list pyval :=
  let solution_path := dict_get arguments "solutionPath" (PyStr "") in
  let tc_version := dict_get arguments "tcVersion" PyNone in
  let args := [PyStr "--solution"; solution_path] in
  let args := extend_if tc_version [PyStr "--tcversion"; tc_version] args in
  args.

Definition set_target_args (arguments : dict) : list pyval :=
  let solution_path := dict_get arguments "solutionPath" (PyStr "") in
  let ams_net_id := dict_get arguments "amsNetId" (PyStr "") in
  let tc_version := dict_get arguments "tcVersion" PyNone in
  let args :=
    [PyStr "--solution"; solution_path; PyStr "--amsnetid"; ams_net_id] in
  let args := extend_if tc_version [PyStr "--tcversion"; tc_version] args in
  args.

(** [twincat_activate] and [twincat_restart] fill [args] the same way. *)
Definition activate_args (arguments : dict) : list pyval :=
  let solution_path := dict_get arguments "solutionPath" (PyStr "") in
  let ams_net_id := dict_get arguments "amsNetId" PyNone in
  let tc_version := dict_get arguments "tcVersion" PyNone in
  let args := [PyStr "--solution"; solution_path] in
  let args := extend_if ams_net_id [PyStr "--amsnetid"; ams_net_id] args in
  let args := extend_if tc_version [PyStr "--tcversion"; tc_version] args in
  args.

Definition restart_args (arguments : dict) : list pyval :=
  let solution_path := dict_get arguments "solutionPath" (PyStr "") in
  let ams_net_id := dict_get arguments "amsNetId" PyNone in
  let tc_version := dict_get arguments "tcVersion" PyNone in
  let args := [PyStr "--solution"; solution_path] in
  let args := extend_if ams_net_id [PyStr "--amsnetid"; ams_net_id] args in
  let args := extend_if tc_version [PyStr "--tcversion"; tc_version] args in
  args.

Definition deploy_args (arguments : dict) : list pyval :=
  let solution_path := dict_get arguments "solutionPath" (PyStr "") in
  let ams_net_id := dict_get arguments "amsNetId" (PyStr "") in
  let plc_name := dict_get arguments "plcName" PyNone in
  let tc_version := dict_get arguments "tcVersion" PyNone in
  let skip_build := dict_get arguments "skipBuild" (PyBool false) in
  let dry_run := dict_get arguments "dryRun" (PyBool false) in
  let args :=
    [PyStr "--solution"; solution_path; PyStr "--amsnetid"; ams_net_id] in
  let args := extend_if plc_name [PyStr "--plc"; plc_name] args in
  let args := extend_if tc_version [PyStr "--tcversion"; tc_version] args in
  let args := extend_if skip_build [PyStr "--skip-build"] args in
  let args := extend_if dry_run [PyStr "--dry-run"] args in
  args.

(** *** Rendering

    Each definition is the part of the tool's branch of [call_tool] that
    turns [result] into [output]. *)

Record TextContent := mkTextContent { type : string; text : string }.

(** [for x in items: output += body(x)] *)
Fixpoint for_each (items : list pyval) (body : pyval -> outcome string)
    (output : string) : outcome string :=
  match items with
  | [] => Return output
  | x :: rest => line <~ body x ;; for_each rest body (output ++ line)
  end.

(** One line of an error or warning list. *)
Definition issue_line (file_key : string) (w : pyval) : outcome string :=
  file <~ py_get w file_key (PyStr "") ;;
  line <~ py_get w "line" (PyStr "") ;;
  description <~ py_get w "description" (PyStr "") ;;
  Return ("  - " ++ py_str file ++ ":" ++ py_str line ++ ": "
            ++ py_str description ++ nl).

(** [if result.get(key): output += header; for w in result[key]: ...] *)
Definition issue_list (result : pyval) (key header file_key : string)
    (output : string) : outcome string :=
  present <~ py_get result key PyNone ;;
  if truthy present then
    listed <~ py_getitem result key ;;
    items <~ py_iter listed ;;
    for_each items (issue_line file_key) (output ++ header)
  else Return output.

Definition render_build (result : pyval) : outcome string :=
  success <~ py_get result "success" PyNone ;;
  if truthy success then
    summary <~ py_get result "summary" (PyStr "Build succeeded") ;;
    let output := "‚úÖ " ++ py_str summary ++ nl in
    issue_list result "warnings" (nl ++ "‚ö†Ô∏è Warnings:" ++ nl) "fileName"
      output
  else
    let output := "‚ùå Build failed" ++ nl in
    error_message <~ py_get result "errorMessage" PyNone ;;
    output <~ (if truthy error_message then
                 shown <~ py_getitem result "errorMessage" ;;
                 Return (output ++ nl ++ "Error: " ++ py_str shown ++ nl)
               else Return output) ;;
    output <~ issue_list result "errors" (nl ++ "üî¥ Errors:" ++ nl)
                "fileName" output ;;
    issue_list result "warnings" (nl ++ "‚ö†Ô∏è Warnings:" ++ nl) "fileName"
      output.

Definition plc_line (plc : pyval) : outcome string :=
  plc_name <~ py_get plc "name" (PyStr "Unknown") ;;
  ams_port <~ py_get plc "amsPort" (PyStr "Unknown") ;;
  Return ("  - " ++ py_str plc_name ++ " (AMS Port: " ++ py_str ams_port
            ++ ")" ++ nl).

Definition render_get_info (result : pyval) : outcome string :=
  error_message <~ py_get result "errorMessage" PyNone ;;
  if truthy error_message then
    shown <~ py_getitem result "errorMessage" ;;
    Return ("‚ùå Error: " ++ py_str shown)
  else
    solution <~ py_get result "solutionPath" (PyStr "Unknown") ;;
    tc_version <~ py_get result "tcVersion" (PyStr "Unknown") ;;
    pinned <~ py_get result "tcVersionPinned" PyNone ;;
    vs_version <~ py_get result "visualStudioVersion" (PyStr "Unknown") ;;
    platform <~ py_get result "targetPlatform" (PyStr "Unknown") ;;
    let output :=
      "üìã TwinCAT Project Info" ++ nl
        ++ "Solution: " ++ py_str solution ++ nl
        ++ "TwinCAT Version: " ++ py_str tc_version ++ " "
        ++ (if truthy pinned then "(pinned)" else "") ++ nl
        ++ "Visual Studio Version: " ++ py_str vs_version ++ nl
        ++ "Target Platform: " ++ py_str platform ++ nl
        ++ nl
        ++ "PLC Projects:" ++ nl in
    plcs <~ py_get result "plcProjects" (PyList []) ;;
    if truthy plcs then
      items <~ py_iter plcs ;;
      for_each items plc_line output
    else Return (output ++ "  (none found)" ++ nl).

Definition render_clean (result : pyval) : outcome string :=
  success <~ py_get result "success" PyNone ;;
  if truthy success then
    message <~ py_get result "message"
                 (PyStr "Solution cleaned successfully") ;;
    Return ("‚úÖ " ++ py_str message)
  else
    error <~ py_get result "error" (PyStr "Unknown error") ;;
    Return ("‚ùå Clean failed: " ++ py_str error).

Definition render_set_target (ams_net_id : pyval) (result : pyval)
  : outcome string :=
  success <~ py_get result "success" PyNone ;;
  if truthy success then
    message <~ py_get result "message" (PyStr "Target set successfully") ;;
    let output := "‚úÖ " ++ py_str message ++ nl in
    previous <~ py_get result "previousTarget" (PyStr "Unknown") ;;
    let output := output ++ "Previous target: " ++ py_str previous ++ nl in
    new_target <~ py_get result "newTarget" ams_net_id ;;
    Return (output ++ "New target: " ++ py_str new_target)
  else
    error <~ py_get result "error" (PyStr "Unknown error") ;;
    Return ("‚ùå Set target failed: " ++ py_str error).

Definition render_activate (result : pyval) : outcome string :=
  success <~ py_get result "success" PyNone ;;
  if truthy success then
    message <~ py_get result "message" (PyStr "Configuration activated") ;;
    let output := "‚úÖ " ++ py_str message ++ nl in
    target <~ py_get result "targetNetId" (PyStr "Unknown") ;;
    Return (output ++ "Target: " ++ py_str target)
  else
    error <~ py_get result "error" (PyStr "Unknown error") ;;
    Return ("‚ùå Activation failed: " ++ py_str error).

Definition render_restart (result : pyval) : outcome string :=
  success <~ py_get result "success" PyNone ;;
  if truthy success then
    message <~ py_get result "message" (PyStr "TwinCAT restarted") ;;
    let output := "‚úÖ " ++ py_str message ++ nl in
    target <~ py_get result "targetNetId" (PyStr "Unknown") ;;
    Return (output ++ "Target: " ++ py_str target)
  else
    error <~ py_get result "error" (PyStr "Unknown error") ;;
    Return ("‚ùå Restart failed: " ++ py_str error).

(** One line of the step list of a deployment. *)
Definition step_line (step : pyval) : outcome string :=
  step_dry_run <~ py_get step "dryRun" PyNone ;;
  let dry_note := if truthy step_dry_run then " (dry run)" else "" in
  number <~ py_get step "step" (PyStr "?") ;;
  action <~ py_get step "action" (PyStr "Unknown") ;;
  Return ("  " ++ py_str number ++ ". " ++ py_str action ++ dry_note ++ nl).

Definition render_deploy (ams_net_id dry_run : pyval) (result : pyval)
  : outcome string :=
  success <~ py_get result "success" PyNone ;;
  if truthy success then
    message <~ py_get result "message" (PyStr "Deployment successful") ;;
    let output :=
      (if truthy dry_run then "üîç DRY RUN: " else "")
        ++ "‚úÖ " ++ py_str message ++ nl ++ nl in
    target <~ py_get result "targetNetId" ams_net_id ;;
    let output := output ++ "Target: " ++ py_str target ++ nl in
    deployed <~ py_get result "deployedPlcs" (PyList []) ;;
    joined <~ py_join ", " deployed ;;
    let output := output ++ "Deployed PLCs: " ++ joined ++ nl ++ nl in
    steps <~ py_get result "steps" PyNone ;;
    if truthy steps then
      let output := output ++ "üìã Deployment Steps:" ++ nl in
      listed <~ py_getitem result "steps" ;;
      items <~ py_iter listed ;;
      for_each items step_line output
    else Return output
  else
    error <~ py_get result "error" (PyStr "Unknown error") ;;
    let output := "‚ùå Deployment failed: " ++ py_str error ++ nl in
    issue_list result "errors" (nl ++ "üî¥ Build Errors:" ++ nl) "file"
      output.

(** *** Dispatch *)

(** [return [TextContent(type="text", text=output)]] *)
Definition respond (output : outcome string) : M (list TextContent) :=
  output <- lift output ;;
  ret [mkTextContent "text" output].

Definition call_tool (name : string) (arguments : dict)
  : M (list TextContent) :=
  if name =? "twincat_build" then
    result <- run_tc_automation "build" (build_args arguments) ;;
    respond (render_build result)
  else if name =? "twincat_get_info" then
    result <- run_tc_automation "info" (get_info_args arguments) ;;
    respond (render_get_info result)
  else if name =? "twincat_clean" then
    result <- run_tc_automation "clean" (clean_args arguments) ;;
    respond (render_clean result)
  else if name =? "twincat_set_target" then
    let ams_net_id := dict_get arguments "amsNetId" (PyStr "") in
    result <- run_tc_automation "set-target" (set_target_args arguments) ;;
    respond (render_set_target ams_net_id result)
  else if name =? "twincat_activate" then
    result <- run_tc_automation "activate" (activate_args arguments) ;;
    respond (render_activate result)
  else if name =? "twincat_restart" then
    result <- run_tc_automation "restart" (restart_args arguments) ;;
    respond (render_restart result)
  else if name =? "twincat_deploy" then
    let ams_net_id := dict_get arguments "amsNetId" (PyStr "") in
    let dry_run := dict_get arguments "dryRun" (PyBool false) in
    result <- run_tc_automation "deploy" (deploy_args arguments) ;;
    respond (render_deploy ams_net_id dry_run result)
  else
    ret [mkTextContent "text" ("Unknown tool: " ++ name)].

End Server.

(** ** Concrete surroundings, to run the module on *)

Module Sample.

(** The components of a path when the script is installed as
    [C:\twincat-mcp\mcp-server\server.py]. *)
Fixpoint parts (p : Path) : list string :=
  match p with
  | ScriptFile => ["C:"; "twincat-mcp"; "mcp-server"; "server.py"]
  | Parent q => removelast (parts q)
  | Join q name => (parts q ++ [name])%list
  end.

Definition windows_str (p : Path) : string := String.concat "\" (parts p).

Definition quoted (s : string) : string := "'" ++ s ++ "'".

(** A world where the executable is at the paths [present] accepts, every
    spawn ends as [spawned] and every parse as [parsed]. *)
Definition world (present : Path -> bool)
    (spawned : outcome CompletedProcess) (parsed : outcome pyval) : World :=
  mkWorld windows_str (fun p => Return (present p)) (fun _ _ _ => spawned)
    (fun _ => parsed) quoted.

(** A world given by what each probe does, an exception included. *)
Definition probing_world (probe : Path -> outcome bool)
    (spawned : outcome CompletedProcess) (parsed : outcome pyval) : World :=
  mkWorld windows_str probe (fun _ _ _ => spawned) (fun _ => parsed) quoted.

Definition nowhere (p : Path) : bool := false.
Definition everywhere (p : Path) : bool := true.

(** Only the debug build is there. *)
Definition debug_only (p : Path) : bool :=
  windows_str p =? "C:\twincat-mcp\TcAutomation\bin\Debug\TcAutomation.exe".

Definition release_exe : string :=
  "C:\twincat-mcp\TcAutomation\bin\Release\TcAutomation.exe".
Definition release_dir : string :=
  "C:\twincat-mcp\TcAutomation\bin\Release".

Definition access_denied : exn :=
  mkExn (OtherException "PermissionError") "[Errno 13] Permission denied".

(** The debug build is there, and the release directory may not be read:
    the probe of the release build raises. *)
Definition release_unreadable (p : Path) : outcome bool :=
  if windows_str p =? release_exe then Raise access_denied
  else Return (debug_only p).




Definition printed (out err : string) : outcome CompletedProcess :=
  Return (mkCompleted 0 out err).

Definition timed_out : outcome CompletedProcess :=
  Raise (mkExn TimeoutExpired
    "Command '['TcAutomation.exe', 'build']' timed out after 300 seconds").

Definition dq : string := String (ascii_of_nat 34) EmptyString.

(** The text of the JSON document that says success and no more. *)
Definition success_text : string :=
  "{" ++ dq ++ "success" ++ dq ++ ": true}".

(** A deployment report with one step that says nothing of a dry run. *)
Definition one_step_report : pyval :=
  PyDict [ ("success", PyBool true);
           ("steps",
            PyList [ PyDict [ ("step", PyInt 1);
                              ("action", PyStr "Build solution") ] ]) ].

Definition one_step_text : string :=
  "{" ++ dq ++ "success" ++ dq ++ ": true, " ++ dq ++ "steps" ++ dq
    ++ ": [{" ++ dq ++ "step" ++ dq ++ ": 1, " ++ dq ++ "action" ++ dq
    ++ ": " ++ dq ++ "Build solution" ++ dq ++ "}]}".

(** A report of two steps, the second marked as a dry run. *)
Definition two_steps : list dict :=
  [ [ ("step", PyInt 1); ("action", PyStr "Build solution") ];
    [ ("step", PyInt 2); ("action", PyStr "Activate configuration");
      ("dryRun", PyBool true) ] ].

Definition two_step_report : dict :=
  [ ("success", PyBool true); ("steps", PyList (map PyDict two_steps)) ].

Definition two_step_text : string :=
  "{" ++ dq ++ "success" ++ dq ++ ": true, " ++ dq ++ "steps" ++ dq
    ++ ": [{" ++ dq ++ "step" ++ dq ++ ": 1, " ++ dq ++ "action" ++ dq
    ++ ": " ++ dq ++ "Build solution" ++ dq ++ "}, {" ++ dq ++ "step" ++ dq
    ++ ": 2, " ++ dq ++ "action" ++ dq ++ ": " ++ dq
    ++ "Activate configuration" ++ dq ++ ", " ++ dq ++ "dryRun" ++ dq
    ++ ": true}]}".

(** A failed build that reports one error and no warning. *)
Definition one_error_report : dict :=
  [ ("success", PyBool false);
    ("errors",
     PyList
       (map PyDict
          [ [ ("fileName", PyStr "MAIN.TcPOU"); ("line", PyInt 12);
              ("description", PyStr "Identifier not defined") ] ])) ].

Definition one_error_text : string :=
  "{" ++ dq ++ "success" ++ dq ++ ": false, " ++ dq ++ "errors" ++ dq
    ++ ": [{" ++ dq ++ "fileName" ++ dq ++ ": " ++ dq ++ "MAIN.TcPOU" ++ dq
    ++ ", " ++ dq ++ "line" ++ dq ++ ": 12, " ++ dq ++ "description" ++ dq
    ++ ": " ++ dq ++ "Identifier not defined" ++ dq ++ "}]}".

(** A good build with one warning and, beside it, an error entry. *)
Definition one_warning_report : dict :=
  [ ("success", PyBool true); ("summary", PyStr "Build succeeded with 1 warning");
    ("errors", PyList [PyDict [("description", PyStr "stale")]]);
    ("warnings",
     PyList
       (map PyDict
          [ [ ("fileName", PyStr "FB_Axis.TcPOU"); ("line", PyInt 7);
              ("description", PyStr "Unused variable") ] ])) ].

Definition one_warning_text : string :=
  "{" ++ dq ++ "success" ++ dq ++ ": true, " ++ dq ++ "summary" ++ dq
    ++ ": " ++ dq ++ "Build succeeded with 1 warning" ++ dq ++ ", "
    ++ dq ++ "errors" ++ dq ++ ": [{" ++ dq ++ "description" ++ dq ++ ": "
    ++ dq ++ "stale" ++ dq ++ "}], " ++ dq ++ "warnings" ++ dq
    ++ ": [{" ++ dq ++ "fileName" ++ dq ++ ": " ++ dq ++ "FB_Axis.TcPOU"
    ++ dq ++ ", " ++ dq ++ "line" ++ dq ++ ": 7, " ++ dq ++ "description"
    ++ dq ++ ": " ++ dq ++ "Unused variable" ++ dq ++ "}]}".

(** A good build whose warnings are plain strings. *)
Definition string_warning_report : dict :=
  [ ("success", PyBool true);
    ("warnings", PyList [PyStr "Unused variable"]) ].

Definition string_warning_text : string :=
  "{" ++ dq ++ "success" ++ dq ++ ": true, " ++ dq ++ "warnings" ++ dq
    ++ ": [" ++ dq ++ "Unused variable" ++ dq ++ "]}".

(** A failed deployment that reports its build error under [file]. *)
Definition failed_deploy_report : dict :=
  [ ("success", PyBool false); ("error", PyStr "Build failed");
    ("errors",
     PyList
       (map PyDict
          [ [ ("file", PyStr "MAIN.TcPOU"); ("line", PyInt 3);
              ("description", PyStr "Syntax error") ] ])) ].

Definition failed_deploy_text : string :=
  "{" ++ dq ++ "success" ++ dq ++ ": false, " ++ dq ++ "error" ++ dq ++ ": "
    ++ dq ++ "Build failed" ++ dq ++ ", " ++ dq ++ "errors" ++ dq
    ++ ": [{" ++ dq ++ "file" ++ dq ++ ": " ++ dq ++ "MAIN.TcPOU" ++ dq
    ++ ", " ++ dq ++ "line" ++ dq ++ ": 3, " ++ dq ++ "description" ++ dq
    ++ ": " ++ dq ++ "Syntax error" ++ dq ++ "}]}".

(** A good deployment that numbers its PLCs instead of naming them. *)
Definition numbered_plcs_report : dict :=
  [ ("success", PyBool true);
    ("deployedPlcs", PyList (map PyStr ["Main"] ++ [PyInt 2])%list) ].

Definition numbered_plcs_text : string :=
  "{" ++ dq ++ "success" ++ dq ++ ": true, " ++ dq ++ "deployedPlcs" ++ dq
    ++ ": [" ++ dq ++ "Main" ++ dq ++ ", 2]}".

(** The information of a solution with two PLC projects, the second
    without a port. *)
Definition two_plc_report : dict :=
  [ ("solutionPath", PyStr "C:\P\S.sln"); ("tcVersion", PyStr "3.1.4024.56");
    ("tcVersionPinned", PyBool true);
    ("plcProjects",
     PyList
       (map PyDict
          [ [ ("name", PyStr "Main"); ("amsPort", PyInt 851) ];
            [ ("name", PyStr "Safety") ] ])) ].

Definition two_plc_text : string :=
  "{" ++ dq ++ "solutionPath" ++ dq ++ ": " ++ dq ++ "C:\\P\\S.sln" ++ dq
    ++ ", " ++ dq ++ "tcVersion" ++ dq ++ ": " ++ dq ++ "3.1.4024.56" ++ dq
    ++ ", " ++ dq ++ "tcVersionPinned" ++ dq ++ ": true, " ++ dq
    ++ "plcProjects" ++ dq ++ ": [{" ++ dq ++ "name" ++ dq ++ ": " ++ dq
    ++ "Main" ++ dq ++ ", " ++ dq ++ "amsPort" ++ dq ++ ": 851}, {" ++ dq
    ++ "name" ++ dq ++ ": " ++ dq ++ "Safety" ++ dq ++ "}]}".

(** The report of a target change that names the old target only. *)
Definition target_report : dict :=
  [ ("success", PyBool true); ("previousTarget", PyStr "127.0.0.1.1.1") ].

Definition target_text : string :=
  "{" ++ dq ++ "success" ++ dq ++ ": true, " ++ dq ++ "previousTarget" ++ dq
    ++ ": " ++ dq ++ "127.0.0.1.1.1" ++ dq ++ "}".

Definition not_json : outcome pyval :=
  Raise (mkExn JSONDecodeError "Expecting value: line 1 column 1 (char 0)").

End Sample.

(** ** Vocabulary of the specification *)

(** The prefix of [l] up to and including its first element accepted by
    [f]; all of [l] when there is none. *)
Fixpoint up_to_first {A} (f : A -> bool) (l : list A) : list A :=
  match l with
  | [] => []
  | x :: rest => if f x then [x] else x :: up_to_first f rest
  end.

(** The loop of the locator over the answers of the probes: the first
    path whose probe says yes, none when every probe says no, and the
    exception of the first probe that raises. *)
Fixpoint locate (probe : Path -> outcome bool) (paths : list Path)
  : outcome (option Path) :=
  match paths with
  | [] => Return None
  | p :: rest =>
      match probe p with
      | Return true => Return (Some p)
      | Return false => locate probe rest
      | Raise e => Raise e
      end
  end.

(** A probe that ends the loop: it says yes, or it raises. *)
Definition stops (W : World) (p : Path) : bool :=
  match path_exists W p with
  | Return false => false
  | _ => true
  end.

(** The probes [find_tc_automation_exe] makes in a world. *)
Definition probes (W : World) : list event :=
  map Probe (up_to_first (stops W) TC_AUTOMATION_PATHS).

(** The command line of the external process. *)
Definition command_line (W : World) (exe : Path) (command : string)
    (args : list pyval) : list pyval :=
  PyStr (path_str W exe) :: PyStr command :: args.

(** The one spawn the bridge makes once the executable is found. *)
Definition spawn_of (W : World) (exe : Path) (command : string)
    (args : list pyval) : event :=
  Spawn (command_line W exe command args) 300 (path_str W (Parent exe)).

(** A failure envelope with nothing but the message. *)
Definition failure (message : string) : pyval :=
  PyDict [("success", PyBool false); ("errorMessage", PyStr message)].

(** The four candidate locations, by the names the specification gives
    them: release build, debug build, alternate release layout, published
    layout. *)
Definition project_dir : Path := (Parent SCRIPT_DIR / "TcAutomation")%path.
Definition release_build : Path :=
  (project_dir / "bin" / "Release" / "TcAutomation.exe")%path.
Definition debug_build : Path :=
  (project_dir / "bin" / "Debug" / "TcAutomation.exe")%path.
Definition alternate_release : Path :=
  (project_dir / "bin" / "Release" / "net8.0-windows" / "TcAutomation.exe")%path.
Definition published : Path :=
  (project_dir / "publish" / "TcAutomation.exe")%path.

(** The failure envelope for output that is not JSON. *)
Definition invalid_json_failure (out err : string) : pyval :=
  PyDict [ ("success", PyBool false);
           ("errorMessage", PyStr ("Invalid JSON output: " ++ out));
           ("stderr", PyStr err) ].

(** No candidate path exists. *)
Definition executable_absent (W : World) : Prop :=
  forall p, In p TC_AUTOMATION_PATHS -> path_exists W p = Return false.

(** The subcommand and the argument vector [call_tool] hands to the bridge
    for a tool name, collected from its branches. *)
Definition cli_command (tool_name : string) : string :=
  if tool_name =? "twincat_build" then "build"
  else if tool_name =? "twincat_get_info" then "info"
  else if tool_name =? "twincat_clean" then "clean"
  else if tool_name =? "twincat_set_target" then "set-target"
  else if tool_name =? "twincat_activate" then "activate"
  else if tool_name =? "twincat_restart" then "restart"
  else if tool_name =? "twincat_deploy" then "deploy"
  else "".

Definition tool_args (tool_name : string) (arguments : dict) : list pyval :=
  if tool_name =? "twincat_build" then build_args arguments
  else if tool_name =? "twincat_get_info" then get_info_args arguments
  else if tool_name =? "twincat_clean" then clean_args arguments
  else if tool_name =? "twincat_set_target" then set_target_args arguments
  else if tool_name =? "twincat_activate" then activate_args arguments
  else if tool_name =? "twincat_restart" then restart_args arguments
  else if tool_name =? "twincat_deploy" then deploy_args arguments
  else [].

Definition known_tool (tool_name : string) : bool :=
  existsb (String.eqb tool_name) (map name list_tools).

(** The first lines of the information view, up to the list of PLC
    projects. *)
Definition info_header (W : World) (d : dict) : string :=
  "üìã TwinCAT Project Info" ++ nl
    ++ "Solution: " ++ py_str W (dict_get d "solutionPath" (PyStr "Unknown"))
    ++ nl
    ++ "TwinCAT Version: "
    ++ py_str W (dict_get d "tcVersion" (PyStr "Unknown")) ++ " "
    ++ (if truthy (dict_get d "tcVersionPinned" PyNone) then "(pinned)"
        else "") ++ nl
    ++ "Visual Studio Version: "
    ++ py_str W (dict_get d "visualStudioVersion" (PyStr "Unknown")) ++ nl
    ++ "Target Platform: "
    ++ py_str W (dict_get d "targetPlatform" (PyStr "Unknown")) ++ nl
    ++ nl
    ++ "PLC Projects:" ++ nl.

(** The command line flag of a tool property. *)
Definition flag_of (property : string) : string :=
  if property =? "solutionPath" then "--solution"
  else if property =? "amsNetId" then "--amsnetid"
  else if property =? "plcName" then "--plc"
  else if property =? "tcVersion" then "--tcversion"
  else if property =? "clean" then "--clean"
  else if property =? "skipBuild" then "--skip-build"
  else if property =? "dryRun" then "--dry-run"
  else "".

(** The properties the catalog declares required for a tool name. *)
Definition required_of (tool_name : string) : list string :=
  match find (fun tool => name tool =? tool_name) list_tools with
  | Some tool => required (inputSchema tool)
  | None => []
  end.

(** Some required property of the tool has no entry in the arguments. *)
Definition missing_required (tool_name : string) (arguments : dict) : bool :=
  existsb (fun property =>
             match dict_lookup property arguments with
             | None => true
             | Some _ => false
             end) (required_of tool_name).

(** *** The uniform rules for argument vectors, in the words of the
    specification

    The tokens of a tool are those of its properties in the order the
    catalog declares them.  A boolean property gives its bare flag when its
    value (or, absent, its declared default) is true.  A string property
    gives the pair of its flag and its value: always when the tool requires
    the property, and otherwise only when the value is there and not
    empty. *)

Definition is_required (tool : Tool) (property : string) : bool :=
  existsb (String.eqb property) (required (inputSchema tool)).

Definition declared_default (schema : Property) : bool :=
  match prop_default schema with
  | Some (PyBool b) => b
  | _ => false
  end.

Definition tokens (tool : Tool) (arguments : dict)
    (entry : string * Property) : list string :=
  let (property, schema) := entry in
  if prop_type schema =? "boolean" then
    let value := match dict_lookup property arguments with
                 | Some (PyBool b) => b
                 | _ => declared_default schema
                 end in
    if value then [flag_of property] else []
  else
    match dict_lookup property arguments with
    | Some (PyStr s) =>
        if is_required tool property || negb (s =? "")
        then [flag_of property; s] else []
    | _ => []
    end.

Definition uniform_argv (tool : Tool) (arguments : dict) : list string :=
  flat_map (tokens tool arguments) (properties (inputSchema tool)).

(** A value of the type the schema declares for a property. *)
Definition well_typed (schema : Property) (v : pyval) : bool :=
  match v with
  | PyStr _ => prop_type schema =? "string"
  | PyBool _ => prop_type schema =? "boolean"
  | _ => false
  end.

(** Arguments valid for a tool: each declared property is absent, when it
    is not required, or holds a value of its declared type. *)
Definition valid_arguments (tool : Tool) (arguments : dict) : bool :=
  forallb (fun entry : string * Property =>
             match dict_lookup (fst entry) arguments with
             | Some v => well_typed (snd entry) v
             | None => negb (is_required tool (fst entry))
             end) (properties (inputSchema tool)).

(** The line of one reported step: it carries the note " (dry run)" when
    the step's own [dryRun] field is truthy. *)
Definition step_text (W : World) (step : dict) : string :=
  "  " ++ py_str W (dict_get step "step" (PyStr "?")) ++ ". "
    ++ py_str W (dict_get step "action" (PyStr "Unknown"))
    ++ (if truthy (dict_get step "dryRun" PyNone) then " (dry run)" else "")
    ++ nl.

(** *** Vocabulary for the failures of the bridge *)

(** The run of the external process did not end in a parsed document: the
    spawn raised, or nothing but white space was printed, or the parse
    raised. *)
Definition bridge_fails (W : World) (exe : Path) (command : string)
    (args : list pyval) : Prop :=
  match subprocess_run W (command_line W exe command args) 300
          (path_str W (Parent exe)) with
  | Raise _ => True
  | Return cp =>
      py_strip (stdout cp) = "" \/ exists e, json_loads W (stdout cp) = Raise e
  end.

(** What the handlers of [run_tc_automation] say of a caught exception. *)
Definition caught_message (e : exn) : string :=
  match exn_type e with
  | TimeoutExpired => "Command timed out after 5 minutes"
  | _ => exn_str e
  end.

(** The message of the failure envelope the bridge makes in such a run. *)
Definition bridge_failure_message (W : World) (exe : Path) (command : string)
    (args : list pyval) : string :=
  match subprocess_run W (command_line W exe command args) 300
          (path_str W (Parent exe)) with
  | Raise e => caught_message e
  | Return cp =>
      if py_strip (stdout cp) =? "" then
        if stderr cp =? "" then "No output from TcAutomation.exe"
        else stderr cp
      else
        match json_loads W (stdout cp) with
        | Raise e =>
            match exn_type e with
            | JSONDecodeError => "Invalid JSON output: " ++ stdout cp
            | _ => caught_message e
            end
        | Return _ => ""
        end
  end.

(** The text five of the tools give for an envelope without an [error]
    field. *)
Definition unknown_error_text (tool_name : string) : string :=
  if tool_name =? "twincat_clean" then "‚ùå Clean failed: Unknown error"
  else if tool_name =? "twincat_set_target" then
    "‚ùå Set target failed: Unknown error"
  else if tool_name =? "twincat_activate" then
    "‚ùå Activation failed: Unknown error"
  else if tool_name =? "twincat_restart" then
    "‚ùå Restart failed: Unknown error"
  else "‚ùå Deployment failed: Unknown error" ++ nl.

(** *** Vocabulary for the lists of errors and warnings *)

(** The line of one reported error or warning. *)
Definition issue_text (W : World) (file_key : string) (w : dict) : string :=
  "  - " ++ py_str W (dict_get w file_key (PyStr "")) ++ ":"
    ++ py_str W (dict_get w "line" (PyStr "")) ++ ": "
    ++ py_str W (dict_get w "description" (PyStr "")) ++ nl.

(** A list of errors or warnings under its header; nothing for no entry. *)
Definition issues_text (W : World) (header file_key : string)
    (issues : list dict) : string :=
  match issues with
  | [] => ""
  | _ :: _ => header ++ String.concat "" (map (issue_text W file_key) issues)
  end.

(** The envelope lists [issues] under [key]: the key is absent and there
    are none, or it holds the list of these objects. *)
Definition lists_issues (d : dict) (key : string) (issues : list dict)
  : Prop :=
  (dict_lookup key d = None /\ issues = [])
  \/ dict_lookup key d = Some (PyList (map PyDict issues)).

(** The line of one PLC project in the information view. *)
Definition plc_text (W : World) (plc : dict) : string :=
  "  - " ++ py_str W (dict_get plc "name" (PyStr "Unknown"))
    ++ " (AMS Port: " ++ py_str W (dict_get plc "amsPort" (PyStr "Unknown"))
    ++ ")" ++ nl.

(** ** Strings *)

Lemma append_assoc (a b c : string) : (a ++ b) ++ c = a ++ b ++ c.
Proof. induction a as [|x a IH]; simpl; [reflexivity|now rewrite IH]. Qed.

Lemma append_nil_r (a : string) : a ++ "" = a.
Proof. induction a as [|x a IH]; simpl; [reflexivity|now rewrite IH]. Qed.

(** ** The text functions on small inputs *)

Example utf8_chars_ascii : utf8_chars "a b" = ["a"; " "; "b"].
Proof. reflexivity. Qed.

Example utf8_chars_two_bytes :
  utf8_chars (utf8_encode 233 ++ "t" ++ utf8_encode 8364) =
    [utf8_encode 233; "t"; utf8_encode 8364].
Proof. reflexivity. Qed.

Example strip_blank : py_strip ("  " ++ nl ++ " ") = "".
Proof. reflexivity. Qed.

Example strip_text : py_strip (" not-json " ++ nl) = "not-json".
Proof. reflexivity. Qed.

Example strip_no_break_space :
  py_strip (utf8_encode 160 ++ "x" ++ utf8_encode 8239) = "x".
Proof. reflexivity. Qed.

Example string_of_Z_neg : string_of_Z (-42) = "-42".
Proof. reflexivity. Qed.

Example join_names :
  py_join ", " (PyList [PyStr "Main"; PyStr "Safety"]) =
    Return "Main, Safety".
Proof. reflexivity. Qed.

Example join_number :
  py_join ", " (PyList [PyStr "Main"; PyInt 2]) =
    Raise (mkExn TypeError
             "sequence item 1: expected str instance, int found").
Proof. reflexivity. Qed.

(** ** The module on small inputs *)

Example find_debug_build :
  find_tc_automation_exe
    (Sample.world Sample.debug_only Sample.timed_out Sample.not_json)
  = (Return debug_build, [Probe release_build; Probe debug_build]).
Proof. reflexivity. Qed.

Example bridge_spawn_failure :
  run_tc_automation
    (Sample.world Sample.everywhere
       (Raise (mkExn FileNotFoundError
                 "[WinError 2] The system cannot find the file specified"))
       Sample.not_json)
    "info" [PyStr "--solution"; PyStr "C:\P\S.sln"]
  = (Return
       (failure "[WinError 2] The system cannot find the file specified"),
     [ Probe release_build;
       Spawn [ PyStr Sample.release_exe; PyStr "info"; PyStr "--solution";
               PyStr "C:\P\S.sln" ] 300 Sample.release_dir ]).
Proof. reflexivity. Qed.

Example clean_failure_envelope :
  outcome_of
    (call_tool
       (Sample.world Sample.everywhere (Sample.printed "" "") Sample.not_json)
       "twincat_clean" [("solutionPath", PyStr "C:\P\S.sln")])
  = Return [mkTextContent "text" "‚ùå Clean failed: Unknown error"].
Proof. reflexivity. Qed.

Example unknown_tool :
  call_tool
    (Sample.world Sample.nowhere Sample.timed_out Sample.not_json)
    "twincat_format" []
  = (Return [mkTextContent "text" "Unknown tool: twincat_format"], []).
Proof. reflexivity. Qed.

(** ** The executable locator and the process bridge *)

Section Bridge.

Variable W : World.

Lemma first_existing_spec (paths : list Path) :
  first_existing W paths =
    (locate (path_exists W) paths, map Probe (up_to_first (stops W) paths)).
Proof.
  induction paths as [|p rest IH]; simpl.
  - reflexivity.
  - unfold exists_, stops. destruct (path_exists W p) as [[|]|e]; simpl.
    + reflexivity.
    + rewrite IH. reflexivity.
    + reflexivity.
Qed.

Lemma up_to_first_absent (paths : list Path) :
  locate (path_exists W) paths = Return None ->
  up_to_first (stops W) paths = paths.
Proof.
  induction paths as [|p rest IH]; simpl; intros H.
  - reflexivity.
  - destruct (path_exists W p) as [[|]|e] eqn:Hp; try discriminate.
    assert (Hs : stops W p = false) by (unfold stops; now rewrite Hp).
    now rewrite Hs, IH.
Qed.

Lemma locate_some (paths : list Path) (exe : Path) :
  locate (path_exists W) paths = Return (Some exe) ->
  In exe paths /\ path_exists W exe = Return true.
Proof.
  induction paths as [|p rest IH]; simpl; intros H.
  - discriminate.
  - destruct (path_exists W p) as [[|]|e] eqn:Hp; try discriminate.
    + injection H as <-. split; [now left|exact Hp].
    + destruct (IH H) as [Hin Hexe]. split; [now right|exact Hexe].
Qed.

Lemma find_tc_automation_exe_found (exe : Path) :
  locate (path_exists W) TC_AUTOMATION_PATHS = Return (Some exe) ->
  find_tc_automation_exe W = (Return exe, probes W).
Proof.
  intros H. unfold find_tc_automation_exe, probes, bind, ret.
  rewrite first_existing_spec, H, app_nil_r. reflexivity.
Qed.

Lemma find_tc_automation_exe_missing :
  locate (path_exists W) TC_AUTOMATION_PATHS = Return None ->
  find_tc_automation_exe W =
    (Raise (mkExn FileNotFoundError (not_found_message W)),
     map Probe TC_AUTOMATION_PATHS).
Proof.
  intros H. unfold find_tc_automation_exe, bind, raise.
  rewrite first_existing_spec, H, (up_to_first_absent _ H), app_nil_r.
  reflexivity.
Qed.

(** A probe that raises: its exception leaves the locator. *)
Lemma find_tc_automation_exe_probe_raises (e : exn) :
  locate (path_exists W) TC_AUTOMATION_PATHS = Raise e ->
  find_tc_automation_exe W = (Raise e, probes W).
Proof.
  intros H. unfold find_tc_automation_exe, probes, bind.
  rewrite first_existing_spec, H. reflexivity.
Qed.

(** And the bridge, which calls the locator before its [try]. *)
Lemma run_tc_automation_probe_raises (command : string) (args : list pyval)
    (e : exn) :
  locate (path_exists W) TC_AUTOMATION_PATHS = Raise e ->
  run_tc_automation W command args = (Raise e, probes W).
Proof.
  intros H. unfold run_tc_automation.
  rewrite (find_tc_automation_exe_probe_raises _ H). reflexivity.
Qed.

(** No executable: the exception of the locator leaves the bridge. *)
Lemma run_tc_automation_missing (command : string) (args : list pyval) :
  locate (path_exists W) TC_AUTOMATION_PATHS = Return None ->
  run_tc_automation W command args =
    (Raise (mkExn FileNotFoundError (not_found_message W)),
     map Probe TC_AUTOMATION_PATHS).
Proof.
  intros H. unfold run_tc_automation.
  rewrite (find_tc_automation_exe_missing H). reflexivity.
Qed.

Ltac bridge_steps H :=
  unfold run_tc_automation;
  rewrite (find_tc_automation_exe_found _ H);
  unfold bind, try_except, run, loads, ret, command_line, spawn_of in *;
  cbn [app].

(** The process ran to its end and its output parsed. *)
Lemma run_tc_automation_parsed exe command args cp v :
  locate (path_exists W) TC_AUTOMATION_PATHS = Return (Some exe) ->
  subprocess_run W (command_line W exe command args) 300
    (path_str W (Parent exe)) = Return cp ->
  py_strip (stdout cp) <> "" ->
  json_loads W (stdout cp) = Return v ->
  run_tc_automation W command args =
    (Return v,
     probes W ++ [spawn_of W exe command args; Loads (stdout cp)])%list.
Proof.
  intros H Hrun Hout Hjson. bridge_steps H. rewrite Hrun.
  apply String.eqb_neq in Hout. cbn [truthy]. rewrite Hout. cbn [negb].
  rewrite Hjson. reflexivity.
Qed.

(** The process ran to its end and [json.loads] raised [e]. *)
Lemma run_tc_automation_unparsed exe command args cp e :
  locate (path_exists W) TC_AUTOMATION_PATHS = Return (Some exe) ->
  subprocess_run W (command_line W exe command args) 300
    (path_str W (Parent exe)) = Return cp ->
  py_strip (stdout cp) <> "" ->
  json_loads W (stdout cp) = Raise e ->
  run_tc_automation W command args =
    (Return
       (match exn_type e with
        | JSONDecodeError =>
            PyDict [ ("success", PyBool false);
                     ("errorMessage",
                      PyStr ("Invalid JSON output: " ++ stdout cp));
                     ("stderr", PyStr (stderr cp)) ]
        | TimeoutExpired => failure "Command timed out after 5 minutes"
        | _ => failure (exn_str e)
        end),
     probes W ++ [spawn_of W exe command args; Loads (stdout cp)])%list.
Proof.
  intros H Hrun Hout Hjson. bridge_steps H. rewrite Hrun.
  apply String.eqb_neq in Hout. cbn [truthy]. rewrite Hout. cbn [negb].
  rewrite Hjson. destruct e as [[] msg]; reflexivity.
Qed.

(** The process ran to its end and printed nothing but white space. *)
Lemma run_tc_automation_blank exe command args cp :
  locate (path_exists W) TC_AUTOMATION_PATHS = Return (Some exe) ->
  subprocess_run W (command_line W exe command args) 300
    (path_str W (Parent exe)) = Return cp ->
  py_strip (stdout cp) = "" ->
  run_tc_automation W command args =
    (Return
       (failure (if stderr cp =? "" then "No output from TcAutomation.exe"
                 else stderr cp)),
     probes W ++ [spawn_of W exe command args])%list.
Proof.
  intros H Hrun Hout. bridge_steps H. rewrite Hrun.
  cbn [truthy]. rewrite Hout. cbn [String.eqb negb].
  unfold py_or, failure. cbn [truthy].
  destruct (stderr cp =? ""); reflexivity.
Qed.

(** [subprocess.run] raised [e]. *)
Lemma run_tc_automation_raised exe command args e :
  locate (path_exists W) TC_AUTOMATION_PATHS = Return (Some exe) ->
  subprocess_run W (command_line W exe command args) 300
    (path_str W (Parent exe)) = Raise e ->
  run_tc_automation W command args =
    (Return
       (failure (match exn_type e with
                 | TimeoutExpired => "Command timed out after 5 minutes"
                 | _ => exn_str e
                 end)),
     probes W ++ [spawn_of W exe command args])%list.
Proof.
  intros H Hrun. bridge_steps H. rewrite Hrun.
  destruct e as [[] msg]; reflexivity.
Qed.

(** Once the executable is found the bridge returns, whatever happens. *)
Lemma run_tc_automation_returns exe command args :
  locate (path_exists W) TC_AUTOMATION_PATHS = Return (Some exe) ->
  exists v, outcome_of (run_tc_automation W command args) = Return v.
Proof.
  intros H.
  destruct (subprocess_run W (command_line W exe command args) 300
              (path_str W (Parent exe))) as [cp|e] eqn:Hrun.
  - destruct (string_dec (py_strip (stdout cp)) "") as [Hout|Hout].
    + eexists. now rewrite (run_tc_automation_blank _ _ _ _ H Hrun Hout).
    + destruct (json_loads W (stdout cp)) as [v|e] eqn:Hjson.
      * eexists. now rewrite (run_tc_automation_parsed _ _ _ _ _ H Hrun Hout Hjson).
      * eexists.
        now rewrite (run_tc_automation_unparsed _ _ _ _ _ H Hrun Hout Hjson).
  - eexists. now rewrite (run_tc_automation_raised _ _ _ _ H Hrun).
Qed.

End Bridge.

Lemma executable_absent_find (W : World) :
  executable_absent W -> locate (path_exists W) TC_AUTOMATION_PATHS = Return None.
Proof.
  unfold executable_absent. generalize TC_AUTOMATION_PATHS.
  induction l as [|p rest IH]; simpl; intros H.
  - reflexivity.
  - rewrite (H p (or_introl eq_refl)). apply IH. intros q Hq.
    apply H. now right.
Qed.

(** The renderers are pure, so a tool call makes the calls of the bridge
    and no other. *)
Lemma respond_trace (result : M pyval)
    (render : pyval -> outcome string) :
  trace (bind result (fun r => respond (render r))) = trace result.
Proof.
  destruct result as [[v|e] t]; unfold bind, respond, lift, ret; simpl.
  - destruct (render v); simpl; now rewrite ?app_nil_r.
  - reflexivity.
Qed.

Lemma respond_raise (result : M pyval)
    (render : pyval -> outcome string) (e : exn) :
  outcome_of result = Raise e ->
  outcome_of (bind result (fun r => respond (render r))) = Raise e.
Proof.
  destruct result as [[v|e'] t]; simpl; intros H; [discriminate|].
  injection H as ->. reflexivity.
Qed.

Lemma respond_return (result : M pyval)
    (render : pyval -> outcome string) (v : pyval) :
  outcome_of result = Return v ->
  outcome_of (bind result (fun r => respond (render r))) =
    rbind (render v) (fun output => Return [mkTextContent "text" output]).
Proof.
  destruct result as [[v'|e] t]; simpl; intros H; [|discriminate].
  injection H as ->. unfold respond, lift, bind, ret.
  destruct (render v); reflexivity.
Qed.

(** The names [call_tool] has a branch for are those of the catalog. *)
Lemma tool_names :
  map name list_tools =
    [ "twincat_build"; "twincat_get_info"; "twincat_clean";
      "twincat_set_target"; "twincat_activate"; "twincat_restart";
      "twincat_deploy" ].
Proof. reflexivity. Qed.

Ltac each_tool H :=
  apply (in_map name) in H; rewrite tool_names in H; simpl in H;
  repeat (destruct H as [H|H]; [rewrite <- H; clear H|]); [..|contradiction].

(** What a tool call does to its surroundings is what the bridge does,
    with the subcommand and the argument vector of the tool; an unknown
    name does nothing. *)
Lemma call_tool_trace (W : World) (tool_name : string) (arguments : dict) :
  trace (call_tool W tool_name arguments) =
    if known_tool tool_name then
      trace (run_tc_automation W (cli_command tool_name)
               (tool_args tool_name arguments))
    else [].
Proof.
  unfold call_tool, known_tool, cli_command, tool_args.
  rewrite tool_names. cbn [existsb].
  repeat (destruct (tool_name =? _);
          [cbn [orb]; rewrite ?orb_true_r; apply respond_trace|]).
  reflexivity.
Qed.

Lemma known_tool_name (tool : Tool) :
  In tool list_tools -> known_tool (name tool) = true.
Proof.
  intros H. unfold known_tool. apply existsb_exists. exists (name tool).
  split; [now apply in_map|apply String.eqb_refl].
Qed.

(** The calls of the bridge once the executable is found: the probes, the
    spawn, and then at most the parse. *)
Lemma run_tc_automation_trace (W : World) exe command args :
  locate (path_exists W) TC_AUTOMATION_PATHS = Return (Some exe) ->
  exists parses,
    trace (run_tc_automation W command args) =
      (probes W ++ spawn_of W exe command args :: parses)%list
    /\ forall ev, In ev parses -> exists s, ev = Loads s.
Proof.
  intros H.
  destruct (subprocess_run W (command_line W exe command args) 300
              (path_str W (Parent exe))) as [cp|e] eqn:Hrun.
  - destruct (string_dec (py_strip (stdout cp)) "") as [Hout|Hout].
    + exists []. rewrite (run_tc_automation_blank W _ _ _ _ H Hrun Hout).
      split; [reflexivity|intros ev []].
    + exists [Loads (stdout cp)].
      destruct (json_loads W (stdout cp)) as [v|e] eqn:Hjson.
      * rewrite (run_tc_automation_parsed W _ _ _ _ _ H Hrun Hout Hjson).
        split; [reflexivity|]. intros ev [<-|[]]. now eexists.
      * rewrite (run_tc_automation_unparsed W _ _ _ _ _ H Hrun Hout Hjson).
        split; [reflexivity|]. intros ev [<-|[]]. now eexists.
  - exists []. rewrite (run_tc_automation_raised W _ _ _ _ H Hrun).
    split; [reflexivity|intros ev []].
Qed.

(** A loop only adds to the text it starts from. *)
Lemma for_each_extends (items : list pyval) (body : pyval -> outcome string)
    (output text : string) :
  for_each items body output = Return text ->
  exists added, text = output ++ added.
Proof.
  revert output. induction items as [|x rest IH]; simpl; intros output H.
  - injection H as <-. exists "". now rewrite append_nil_r.
  - destruct (body x) as [line|e]; simpl in H; [|discriminate].
    destruct (IH _ H) as [added ->]. exists (line ++ added).
    now rewrite append_assoc.
Qed.

(** A spawn among the calls of the bridge is the spawn of the executable
    that was found, with the subcommand and the argument vector given. *)
Lemma run_tc_automation_spawn (W : World) command args cmd timeout cwd :
  In (Spawn cmd timeout cwd) (trace (run_tc_automation W command args)) ->
  exists exe,
    locate (path_exists W) TC_AUTOMATION_PATHS = Return (Some exe)
    /\ Spawn cmd timeout cwd = spawn_of W exe command args.
Proof.
  intros Hin.
  destruct (locate (path_exists W) TC_AUTOMATION_PATHS) as [[exe|]|e] eqn:H.
  - exists exe. split; [reflexivity|].
    destruct (run_tc_automation_trace W exe command args H)
      as (parses & Htrace & Hparses).
    rewrite Htrace in Hin. apply in_app_or in Hin.
    destruct Hin as [Hin|[Hin|Hin]].
    + apply in_map_iff in Hin. destruct Hin as (p & Hp & _). discriminate.
    + now symmetry.
    + destruct (Hparses _ Hin) as [s Hs]. discriminate.
  - rewrite (run_tc_automation_missing W command args H) in Hin.
    apply in_map_iff in Hin. destruct Hin as (p & Hp & _). discriminate.
  - rewrite (run_tc_automation_probe_raises W command args e H) in Hin.
    apply in_map_iff in Hin. destruct Hin as (p & Hp & _). discriminate.
Qed.

Lemma tool_args_same_mapping (tool_name : string) (a1 a2 : dict) :
  (forall key, dict_lookup key a1 = dict_lookup key a2) ->
  tool_args tool_name a1 = tool_args tool_name a2.
Proof.
  intros H.
  unfold tool_args, build_args, get_info_args, clean_args, set_target_args,
    activate_args, restart_args, deploy_args, dict_get.
  now rewrite ?H.
Qed.

Lemma dict_get_missing (d : dict) (key : string) (default : pyval) :
  dict_lookup key d = None -> dict_get d key default = default.
Proof. intros H. unfold dict_get. now rewrite H. Qed.

Lemma dict_get_found (d : dict) (key : string) (default v : pyval) :
  dict_lookup key d = Some v -> dict_get d key default = v.
Proof. intros H. unfold dict_get. now rewrite H. Qed.

Lemma extend_if_app (cond : pyval) (more args : list pyval) :
  extend_if cond more args =
    (args ++ (if truthy cond then more else []))%list.
Proof. unfold extend_if. destruct (truthy cond); now rewrite ?app_nil_r. Qed.

Ltac split_valid H :=
  unfold valid_arguments in H;
  cbn [forallb properties inputSchema fst snd solutionPath_property
         tcVersion_property] in H;
  repeat (apply andb_prop in H;
          let Hv := fresh "Hv" in destruct H as [Hv H]);
  clear H.

Ltac case_lookup :=
  match goal with
  | Hv : context [dict_lookup ?key ?a] |- _ =>
      destruct (dict_lookup key a) as [[| [|] | | | ? | |]|];
      try discriminate Hv; clear Hv
  end.

(** On valid arguments the argument vector of every tool is the one the
    uniform rules give. *)
Lemma tool_args_uniform (tool : Tool) (arguments : dict) :
  In tool list_tools ->
  valid_arguments tool arguments = true ->
  tool_args (name tool) arguments = map PyStr (uniform_argv tool arguments).
Proof.
  intros Htool Hvalid. unfold list_tools in Htool. cbn [In] in Htool.
  repeat (destruct Htool as [<-|Htool]); try contradiction;
    split_valid Hvalid;
    unfold tool_args, build_args, get_info_args, clean_args,
      set_target_args, activate_args, restart_args, deploy_args,
      uniform_argv, extend_if, dict_get;
    cbn [name String.eqb Ascii.eqb Bool.eqb flat_map properties inputSchema
           solutionPath_property tcVersion_property tokens prop_type];
    repeat case_lookup;
    cbn [truthy];
    repeat match goal with
           | |- context [(?s =? "")%string] => destruct (s =? "")%string
           end;
    reflexivity.
Qed.

(** The loop over the reported steps. *)
Lemma for_each_steps (W : World) (steps : list dict) (output : string) :
  for_each (map PyDict steps) (step_line W) output =
    Return (output ++ String.concat "" (map (step_text W) steps)).
Proof.
  revert output. induction steps as [|step rest IH]; intros output.
  - simpl. now rewrite append_nil_r.
  - cbn [map for_each]. unfold step_line at 1, py_get, rbind at 1 2 3 4.
    rewrite IH. fold (step_text W step). f_equal.
    rewrite append_assoc. f_equal.
    destruct rest; cbn [map String.concat]; [now rewrite append_nil_r|].
    reflexivity.
Qed.

(** Whatever the probes do, the first call of the bridge is the probe of
    the release build. *)
Lemma run_tc_automation_first_probe (W : World) command args :
  hd_error (trace (run_tc_automation W command args)) =
    Some (Probe release_build).
Proof.
  assert (Hprobes : hd_error (probes W) = Some (Probe release_build)).
  { unfold probes. cbn [TC_AUTOMATION_PATHS up_to_first].
    now destruct (stops W _). }
  destruct (locate (path_exists W) TC_AUTOMATION_PATHS) as [[exe|]|e] eqn:H.
  - destruct (run_tc_automation_trace W exe command args H)
      as (parses & -> & _).
    revert Hprobes. now destruct (probes W).
  - now rewrite (run_tc_automation_missing W _ _ H).
  - now rewrite (run_tc_automation_probe_raises W _ _ e H).
Qed.

(** The loop of the locator past candidates whose probe says no. *)
Lemma first_existing_skips (W : World) (before rest : list Path) :
  (forall p, In p before -> path_exists W p = Return false) ->
  first_existing W (before ++ rest)%list =
    (outcome_of (first_existing W rest),
     (map Probe before ++ trace (first_existing W rest))%list).
Proof.
  induction before as [|p before IH]; intros Hno; cbn [app map].
  - now destruct (first_existing W rest).
  - cbn [first_existing]. unfold exists_.
    rewrite (Hno p (or_introl eq_refl)). unfold bind at 1.
    rewrite IH; [reflexivity|]. intros q Hq. apply Hno. now right.
Qed.

(** ** The claims *)

(** C6, as stated, fails: not every state of the file system lets a probe
    answer.  With the debug build in place and the release directory
    closed to reading, the probe of the release build raises; the locator
    neither returns the debug build, the first candidate that exists, nor
    reports the four paths: the exception of the probe leaves it, after
    that one probe. *)
Lemma find_tc_automation_exe_unreadable_candidate :
  path_exists
    (Sample.probing_world Sample.release_unreadable Sample.timed_out
       Sample.not_json) debug_build
  = Return true
  /\ find_tc_automation_exe
       (Sample.probing_world Sample.release_unreadable Sample.timed_out
          Sample.not_json)
     = (Raise (mkExn (OtherException "PermissionError")
                 "[Errno 13] Permission denied"),
        [Probe release_build]).
Proof. split; reflexivity. Qed.

(** C6, amended.  [find_tc_automation_exe] probes the four candidate paths
    in their declared order (release build, debug build, alternate release
    layout, published layout).  As long as the probes answer, it stops at
    the first path that exists and returns it, and when none of the four
    exists it raises [FileNotFoundError] with a message that lists the four
    paths in that same order.  When a probe raises instead of answering,
    that exception leaves the locator at once and no later candidate is
    probed. *)
Theorem find_tc_automation_exe_first_existing (W : World) :
  TC_AUTOMATION_PATHS =
    [release_build; debug_build; alternate_release; published]
  /\ (forall before exe after,
        TC_AUTOMATION_PATHS = (before ++ exe :: after)%list ->
        (forall p, In p before -> path_exists W p = Return false) ->
        path_exists W exe = Return true ->
        find_tc_automation_exe W =
          (Return exe, map Probe (before ++ [exe])%list))
  /\ ((forall p, In p TC_AUTOMATION_PATHS -> path_exists W p = Return false) ->
      find_tc_automation_exe W =
        (Raise (mkExn FileNotFoundError
           ("TcAutomation.exe not found. Searched paths:" ++ nl
              ++ "  - " ++ path_str W release_build ++ nl
              ++ "  - " ++ path_str W debug_build ++ nl
              ++ "  - " ++ path_str W alternate_release ++ nl
              ++ "  - " ++ path_str W published ++ nl
              ++ nl
              ++ "Please build the TcAutomation project first:" ++ nl
              ++ "  .\scripts\build.ps1")),
         map Probe TC_AUTOMATION_PATHS))
  /\ (forall before p after e,
        TC_AUTOMATION_PATHS = (before ++ p :: after)%list ->
        (forall q, In q before -> path_exists W q = Return false) ->
        path_exists W p = Raise e ->
        find_tc_automation_exe W =
          (Raise e, map Probe (before ++ [p])%list)).
Proof.
  split; [reflexivity|]. split; [|split].
  - intros before exe after Hpaths Hno Hexe.
    unfold find_tc_automation_exe. rewrite Hpaths.
    rewrite (first_existing_skips W before (exe :: after) Hno).
    cbn [first_existing]. unfold exists_. rewrite Hexe.
    unfold bind, ret, outcome_of, trace. cbn [fst snd].
    now rewrite map_app, !app_nil_r.
  - intros Hno. apply executable_absent_find in Hno.
    rewrite (find_tc_automation_exe_missing W Hno).
    unfold not_found_message. cbn [map String.concat TC_AUTOMATION_PATHS].
    rewrite !append_assoc. reflexivity.
  - intros before p after e Hpaths Hno Hp.
    unfold find_tc_automation_exe. rewrite Hpaths.
    rewrite (first_existing_skips W before (p :: after) Hno).
    cbn [first_existing]. unfold exists_. rewrite Hp.
    unfold bind, outcome_of, trace. cbn [fst snd].
    now rewrite map_app.
Qed.

Lemma find_tc_automation_exe_first_existing_witness :
  find_tc_automation_exe
    (Sample.world Sample.debug_only Sample.timed_out Sample.not_json)
  = (Return debug_build, [Probe release_build; Probe debug_build])
  /\ outcome_of
       (find_tc_automation_exe
          (Sample.world Sample.nowhere Sample.timed_out Sample.not_json))
     = Raise (mkExn FileNotFoundError
         ("TcAutomation.exe not found. Searched paths:" ++ nl
            ++ "  - " ++ Sample.release_exe ++ nl
            ++ "  - C:\twincat-mcp\TcAutomation\bin\Debug\TcAutomation.exe"
            ++ nl
            ++ "  - C:\twincat-mcp\TcAutomation\bin\Release\net8.0-windows\TcAutomation.exe"
            ++ nl
            ++ "  - C:\twincat-mcp\TcAutomation\publish\TcAutomation.exe"
            ++ nl ++ nl
            ++ "Please build the TcAutomation project first:" ++ nl
            ++ "  .\scripts\build.ps1"))
  /\ find_tc_automation_exe
       (Sample.probing_world
          (fun p => if Sample.debug_only p then Raise Sample.access_denied
                    else Return false)
          Sample.timed_out Sample.not_json)
     = (Raise Sample.access_denied, [Probe release_build; Probe debug_build]).
Proof.
  split; [|split].
  - apply (proj1 (proj2 (find_tc_automation_exe_first_existing
                    (Sample.world Sample.debug_only Sample.timed_out
                       Sample.not_json)))
             [release_build] debug_build [alternate_release; published]).
    + reflexivity.
    + intros p [<-|[]]. reflexivity.
    + reflexivity.
  - apply (f_equal fst
             (proj1 (proj2 (proj2 (find_tc_automation_exe_first_existing
                (Sample.world Sample.nowhere Sample.timed_out
                   Sample.not_json))))
                (fun p _ => eq_refl))).
  - apply (proj2 (proj2 (proj2 (find_tc_automation_exe_first_existing
             (Sample.probing_world
                (fun p => if Sample.debug_only p
                          then Raise Sample.access_denied
                          else Return false)
                Sample.timed_out Sample.not_json))))
             [release_build] debug_build [alternate_release; published]).
    + reflexivity.
    + intros p [<-|[]]. reflexivity.
    + reflexivity.
Defined.

(** C1 (the code departs from it). When no candidate path exists,
    [run_tc_automation] does not return a failure envelope: the
    [FileNotFoundError] of the locator, raised before the [try] block is
    entered, leaves [run_tc_automation], and leaves [call_tool] for every
    tool of the catalog. *)
Theorem run_tc_automation_missing_executable_raises (W : World)
    (command : string) (args : list pyval) :
  executable_absent W ->
  outcome_of (run_tc_automation W command args) =
    Raise (mkExn FileNotFoundError (not_found_message W))
  /\ forall tool arguments,
       In tool list_tools ->
       outcome_of (call_tool W (name tool) arguments) =
         Raise (mkExn FileNotFoundError (not_found_message W)).
Proof.
  intros Habsent. apply executable_absent_find in Habsent. split.
  - now rewrite (run_tc_automation_missing W command args Habsent).
  - intros tool arguments Htool. each_tool Htool;
      unfold call_tool; cbn [String.eqb Ascii.eqb Bool.eqb];
      apply respond_raise; trivial;
      now rewrite (run_tc_automation_missing W _ _ Habsent).
Qed.

Lemma run_tc_automation_missing_executable_raises_witness :
  let W := Sample.world Sample.nowhere Sample.timed_out Sample.not_json in
  executable_absent W
  /\ outcome_of
       (run_tc_automation W "build" [PyStr "--solution"; PyStr "C:\P\S.sln"])
     = Raise (mkExn FileNotFoundError (not_found_message W)).
Proof.
  assert (H : executable_absent
                (Sample.world Sample.nowhere Sample.timed_out Sample.not_json))
    by (intros p _; reflexivity).
  split; [exact H|].
  exact (proj1 (run_tc_automation_missing_executable_raises _ "build"
                  [PyStr "--solution"; PyStr "C:\P\S.sln"] H)).
Defined.




(** C5. When [subprocess.run], called with the timeout of 300 seconds,
    raises [TimeoutExpired], [run_tc_automation] returns the envelope with
    [success] false and the message "Command timed out after 5 minutes";
    its calls are the probes and the one spawn, so nothing is handed to
    [json.loads]. *)
Theorem run_tc_automation_timeout (W : World) (command : string)
    (args : list pyval) (exe : Path) (e : exn) :
  locate (path_exists W) TC_AUTOMATION_PATHS = Return (Some exe) ->
  subprocess_run W (command_line W exe command args) 300
    (path_str W (Parent exe)) = Raise e ->
  exn_type e = TimeoutExpired ->
  run_tc_automation W command args =
    (Return (PyDict
       [ ("success", PyBool false);
         ("errorMessage", PyStr "Command timed out after 5 minutes") ]),
     (probes W
        ++ [Spawn (command_line W exe command args) 300
              (path_str W (Parent exe))])%list)
  /\ forall s, ~ In (Loads s) (trace (run_tc_automation W command args)).
Proof.
  intros Hexe Hrun Hclass.
  rewrite (run_tc_automation_raised W exe command args e Hexe Hrun), Hclass.
  split; [reflexivity|].
  intros s Hin. unfold trace, probes, spawn_of in Hin. cbn [snd] in Hin.
  apply in_app_or in Hin. destruct Hin as [Hin|[Hin|[]]].
  - apply in_map_iff in Hin. destruct Hin as (p & Hp & _). discriminate.
  - discriminate.
Qed.

Lemma run_tc_automation_timeout_witness :
  outcome_of
    (run_tc_automation
       (Sample.world Sample.debug_only Sample.timed_out Sample.not_json)
       "deploy" [PyStr "--solution"; PyStr "C:\P\S.sln"])
  = Return (failure "Command timed out after 5 minutes").
Proof.
  exact (f_equal fst
           (proj1 (run_tc_automation_timeout
                     (Sample.world Sample.debug_only Sample.timed_out
                        Sample.not_json)
                     "deploy" [PyStr "--solution"; PyStr "C:\P\S.sln"]
                     debug_build _ eq_refl eq_refl eq_refl))).
Defined.

(** C9. When the standard output of the subprocess parses as a JSON value
    that is not an object, [run_tc_automation] returns that value as it
    is, and the first [result.get] of the tool's branch raises
    [AttributeError], which leaves [call_tool]: this holds for every tool
    of the catalog and every arguments mapping. *)
Theorem call_tool_non_object_output_raises (W : World) (tool : Tool)
    (arguments : dict) (exe : Path) (cp : CompletedProcess) (v : pyval) :
  In tool list_tools ->
  locate (path_exists W) TC_AUTOMATION_PATHS = Return (Some exe) ->
  (forall command args,
     subprocess_run W (command_line W exe command args) 300
       (path_str W (Parent exe)) = Return cp) ->
  py_strip (stdout cp) <> "" ->
  json_loads W (stdout cp) = Return v ->
  (forall d, v <> PyDict d) ->
  (forall command args,
     outcome_of (run_tc_automation W command args) = Return v)
  /\ outcome_of (call_tool W (name tool) arguments) =
       Raise (mkExn AttributeError
                ("'" ++ type_name v ++ "' object has no attribute 'get'")).
Proof.
  intros Htool Hexe Hrun Hout Hjson Hv.
  assert (Hbridge : forall command args,
             outcome_of (run_tc_automation W command args) = Return v).
  { intros command args.
    now rewrite (run_tc_automation_parsed W exe command args cp v Hexe
                   (Hrun command args) Hout Hjson). }
  split; [exact Hbridge|].
  each_tool Htool; unfold call_tool; cbn [String.eqb Ascii.eqb Bool.eqb];
    rewrite (respond_return _ _ v (Hbridge _ _));
    (destruct v; try reflexivity; exfalso; eapply Hv; reflexivity).
Qed.

Lemma call_tool_non_object_output_raises_witness :
  outcome_of
    (call_tool
       (Sample.world Sample.everywhere (Sample.printed "[1, 2]" "")
          (Return (PyList [PyInt 1; PyInt 2])))
       "twincat_build" [("solutionPath", PyStr "C:\P\S.sln")])
  = Raise (mkExn AttributeError "'list' object has no attribute 'get'").
Proof.
  refine (proj2 (call_tool_non_object_output_raises
                   (Sample.world Sample.everywhere
                      (Sample.printed "[1, 2]" "")
                      (Return (PyList [PyInt 1; PyInt 2])))
                   (mkTool "twincat_build" _ _)
                   [("solutionPath", PyStr "C:\P\S.sln")]
                   release_build (mkCompleted 0 "[1, 2]" "")
                   (PyList [PyInt 1; PyInt 2])
                   (or_introl eq_refl) eq_refl (fun _ _ => eq_refl)
                   _ eq_refl _)).
  - vm_compute. discriminate.
  - intros d. discriminate.
Defined.

(** C10. The branch of [twincat_get_info] chooses its view by the
    [errorMessage] of the envelope alone.  Replacing the [success] field
    by any value changes nothing in the text.  An envelope with a truthy
    [errorMessage] is rendered as the error line with that message; an
    envelope without one is rendered as the information view, absent
    fields shown as "Unknown", whatever its [success] says. *)
Theorem get_info_view_chosen_by_error_message (W : World) (d : dict) :
  (forall arguments,
     call_tool W "twincat_get_info" arguments =
       bind (run_tc_automation W "info"
               [PyStr "--solution";
                dict_get arguments "solutionPath" (PyStr "")])
            (fun result => respond (render_get_info W result)))
  /\ (forall success,
        render_get_info W (PyDict (("success", success) :: d)) =
          render_get_info W (PyDict d))
  /\ (truthy (dict_get d "errorMessage" PyNone) = true ->
      render_get_info W (PyDict d) =
        Return ("‚ùå Error: "
                  ++ py_str W (dict_get d "errorMessage" PyNone)))
  /\ (truthy (dict_get d "errorMessage" PyNone) = false ->
      (forall text,
         render_get_info W (PyDict d) = Return text ->
         exists plc_lines, text = info_header W d ++ plc_lines)
      /\ (truthy (dict_get d "plcProjects" (PyList [])) = false ->
          render_get_info W (PyDict d) =
            Return (info_header W d ++ "  (none found)" ++ nl)))
  /\ render_get_info W (PyDict [("success", PyBool false)]) =
       Return ("üìã TwinCAT Project Info" ++ nl
                 ++ "Solution: Unknown" ++ nl
                 ++ "TwinCAT Version: Unknown " ++ nl
                 ++ "Visual Studio Version: Unknown" ++ nl
                 ++ "Target Platform: Unknown" ++ nl
                 ++ nl
                 ++ "PLC Projects:" ++ nl
                 ++ "  (none found)" ++ nl)
  /\ render_get_info W
       (PyDict [("success", PyBool true); ("errorMessage", PyStr "boom")]) =
       Return "‚ùå Error: boom".
Proof.
  split; [reflexivity|]. split; [reflexivity|].
  split; [|split; [|split; reflexivity]].
  - intros Hmsg. unfold render_get_info, py_get, py_getitem, rbind.
    rewrite Hmsg. unfold dict_get in *.
    destruct (dict_lookup "errorMessage" d); [reflexivity|discriminate].
  - intros Hmsg. split.
    + intros text. unfold render_get_info, py_get, rbind.
      rewrite Hmsg. fold (info_header W d).
      destruct (truthy (dict_get d "plcProjects" (PyList []))).
      * destruct (py_iter _) as [items|e]; [|discriminate].
        apply for_each_extends.
      * intros H. injection H as <-. now eexists.
    + intros Hplcs. unfold render_get_info, py_get, rbind.
      rewrite Hmsg, Hplcs. reflexivity.
Qed.

Lemma get_info_view_chosen_by_error_message_witness :
  let W := Sample.world Sample.everywhere (Sample.printed "{}" "")
             (Return (PyDict [])) in
  render_get_info W
    (PyDict [("success", PyBool true); ("errorMessage", PyStr "boom")])
  = Return "‚ùå Error: boom"
  /\ render_get_info W
       (PyDict [("success", PyBool false); ("tcVersion", PyStr "3.1.4024")])
     = Return ("üìã TwinCAT Project Info" ++ nl
                 ++ "Solution: Unknown" ++ nl
                 ++ "TwinCAT Version: 3.1.4024 " ++ nl
                 ++ "Visual Studio Version: Unknown" ++ nl
                 ++ "Target Platform: Unknown" ++ nl
                 ++ nl
                 ++ "PLC Projects:" ++ nl
                 ++ "  (none found)" ++ nl).
Proof.
  split.
  - exact (proj1 (proj2 (proj2 (get_info_view_chosen_by_error_message
             (Sample.world Sample.everywhere (Sample.printed "{}" "")
                (Return (PyDict [])))
             [("success", PyBool true); ("errorMessage", PyStr "boom")])))
             eq_refl).
  - exact (proj2 (proj1 (proj2 (proj2 (proj2
             (get_info_view_chosen_by_error_message
                (Sample.world Sample.everywhere (Sample.printed "{}" "")
                   (Return (PyDict [])))
                [("success", PyBool false);
                 ("tcVersion", PyStr "3.1.4024")])))) eq_refl) eq_refl).
Defined.

(** C8. The argument vector a tool call hands to the external process is
    a function of the tool name and of the arguments as a mapping, and of
    nothing else: take two calls of one tool whose arguments agree on every
    key, in any two worlds; whatever process either call spawns, the
    tokens after the path of the executable are the same in both. *)
Theorem call_tool_argv_deterministic (W1 W2 : World) (tool_name : string)
    (a1 a2 : dict) (cmd1 cmd2 : list pyval) (t1 t2 : Z) (cwd1 cwd2 : string) :
  (forall key, dict_lookup key a1 = dict_lookup key a2) ->
  In (Spawn cmd1 t1 cwd1) (trace (call_tool W1 tool_name a1)) ->
  In (Spawn cmd2 t2 cwd2) (trace (call_tool W2 tool_name a2)) ->
  tl cmd1 = tl cmd2.
Proof.
  intros Hsame H1 H2. rewrite call_tool_trace in H1, H2.
  destruct (known_tool tool_name); [|contradiction].
  apply run_tc_automation_spawn in H1, H2.
  destruct H1 as (exe1 & _ & H1), H2 as (exe2 & _ & H2).
  injection H1 as -> _ _. injection H2 as -> _ _.
  unfold command_line. cbn [tl].
  now rewrite (tool_args_same_mapping tool_name a1 a2 Hsame).
Qed.

Lemma call_tool_argv_deterministic_witness :
  tl [ PyStr Sample.release_exe; PyStr "build"; PyStr "--solution";
       PyStr "C:\P\S.sln"; PyStr "--clean" ]
  = tl [ PyStr "C:\twincat-mcp\TcAutomation\bin\Debug\TcAutomation.exe";
         PyStr "build"; PyStr "--solution"; PyStr "C:\P\S.sln";
         PyStr "--clean" ].
Proof.
  apply (call_tool_argv_deterministic
           (Sample.world Sample.everywhere Sample.timed_out Sample.not_json)
           (Sample.world Sample.debug_only (Sample.printed "" "")
              Sample.not_json)
           "twincat_build"
           [("solutionPath", PyStr "C:\P\S.sln")]
           [("solutionPath", PyStr "C:\P\S.sln")]
           _ _ 300 300 Sample.release_dir
           "C:\twincat-mcp\TcAutomation\bin\Debug"
           (fun _ => eq_refl)).
  - vm_compute. right. left. reflexivity.
  - vm_compute. right. right. left. reflexivity.
Defined.

(** C2, as stated, fails: [twincat_build] called with no [solutionPath],
    which the catalog declares required, is not turned down.  The
    executable is spawned with the empty string as the solution path and
    the answer is the rendering of what it printed. *)
Lemma call_tool_missing_required_spawns :
  missing_required "twincat_build" [] = true
  /\ call_tool
       (Sample.world Sample.everywhere
          (Sample.printed Sample.success_text "")
          (Return (PyDict [("success", PyBool true)])))
       "twincat_build" []
     = (Return [mkTextContent "text" ("‚úÖ Build succeeded" ++ nl)],
        [ Probe release_build;
          Spawn [ PyStr Sample.release_exe; PyStr "build";
                  PyStr "--solution"; PyStr ""; PyStr "--clean" ]
            300 Sample.release_dir;
          Loads Sample.success_text ]).
Proof. split; reflexivity. Qed.

(** C2, amended.  A tool call whose arguments lack a property the catalog
    declares required for the tool is not validated.  [call_tool] enters
    the bridge all the same, so that the first candidate path is probed,
    and once the executable is found it is spawned with the flag of the
    missing property followed by the empty string in its argument
    vector. *)
Theorem call_tool_missing_required_not_validated (W : World) (tool : Tool)
    (arguments : dict) (property : string) :
  In tool list_tools ->
  In property (required (inputSchema tool)) ->
  dict_lookup property arguments = None ->
  hd_error (trace (call_tool W (name tool) arguments)) =
    Some (Probe release_build)
  /\ forall exe,
       locate (path_exists W) TC_AUTOMATION_PATHS = Return (Some exe) ->
       exists before after,
         In (Spawn
               (PyStr (path_str W exe) :: PyStr (cli_command (name tool))
                  :: before ++ PyStr (flag_of property) :: PyStr ""
                  :: after)%list
               300 (path_str W (Parent exe)))
            (trace (call_tool W (name tool) arguments)).
Proof.
  intros Htool Hreq Hmissing.
  rewrite call_tool_trace, (known_tool_name tool Htool). split.
  - apply run_tc_automation_first_probe.
  - intros exe H.
    destruct (run_tc_automation_trace W exe (cli_command (name tool))
                (tool_args (name tool) arguments) H)
      as (parses & -> & _).
    assert (Hargs : exists before after,
               tool_args (name tool) arguments =
                 (before ++ PyStr (flag_of property) :: PyStr "" :: after)%list).
    { unfold list_tools in Htool. cbn [In] in Htool.
      repeat (destruct Htool as [<-|Htool]); try contradiction;
        cbn [required inputSchema In] in Hreq;
        repeat (destruct Hreq as [<-|Hreq]); try contradiction;
        unfold tool_args, build_args, get_info_args, clean_args,
          set_target_args, activate_args, restart_args, deploy_args;
        cbn [name String.eqb Ascii.eqb Bool.eqb];
        rewrite ?extend_if_app;
        rewrite (dict_get_missing arguments _ (PyStr "") Hmissing);
        cbn [app].
      all: first
        [ exists []; eexists; reflexivity
        | exists [PyStr "--solution";
                  dict_get arguments "solutionPath" (PyStr "")];
          eexists; reflexivity ]. }
    destruct Hargs as (before & after & Hargs).
    exists before, after. apply in_or_app. right. left.
    unfold spawn_of, command_line. now rewrite Hargs.
Qed.

Lemma call_tool_missing_required_not_validated_witness :
  exists before after,
    In (Spawn
          (PyStr Sample.release_exe :: PyStr "set-target"
             :: before ++ PyStr "--amsnetid" :: PyStr "" :: after)%list
          300 Sample.release_dir)
       (trace
          (call_tool
             (Sample.world Sample.everywhere Sample.timed_out
                Sample.not_json)
             "twincat_set_target" [("solutionPath", PyStr "C:\P\S.sln")])).
Proof.
  refine (proj2 (call_tool_missing_required_not_validated
                   (Sample.world Sample.everywhere Sample.timed_out
                      Sample.not_json)
                   (mkTool "twincat_set_target" _
                      (mkSchema _ _ [ "solutionPath"; "amsNetId" ]))
                   [("solutionPath", PyStr "C:\P\S.sln")] "amsNetId"
                   _ _ eq_refl) release_build eq_refl).
  - do 3 right. left. reflexivity.
  - right. left. reflexivity.
Defined.

(** C7. The argument vector of every tool follows the uniform rules.  For
    each tool of the catalog and arguments valid for it, the process is
    spawned with the path of the executable, the subcommand, and then the
    tokens the rules give: [--solution] and the solution path first, the
    pair of a string property only when the property is required or its
    value is there and not empty, the bare flag of a boolean property only
    when it is true, in the order the tool fixes.  So [twincat_build] with a
    solution path and [clean] true runs with [--solution], the path,
    [--clean]; and [twincat_set_target] with a solution path, an AMS Net ID
    and a version runs with [--solution], the path, [--amsnetid], the id,
    [--tcversion], the version. *)
Theorem argument_builders_uniform (W : World) (tool : Tool)
    (arguments : dict) (exe : Path) :
  In tool list_tools ->
  valid_arguments tool arguments = true ->
  locate (path_exists W) TC_AUTOMATION_PATHS = Return (Some exe) ->
  (exists path more,
     uniform_argv tool arguments = "--solution" :: path :: more
     /\ dict_lookup "solutionPath" arguments = Some (PyStr path))
  /\ In (Spawn
           (map PyStr
              (path_str W exe :: cli_command (name tool)
                 :: uniform_argv tool arguments))
           300 (path_str W (Parent exe)))
        (trace (call_tool W (name tool) arguments))
  /\ In (Spawn
           (map PyStr
              [ path_str W exe; "build"; "--solution"; "C:\P\S.sln";
                "--clean" ])
           300 (path_str W (Parent exe)))
        (trace
           (call_tool W "twincat_build"
              [ ("solutionPath", PyStr "C:\P\S.sln");
                ("clean", PyBool true) ]))
  /\ In (Spawn
           (map PyStr
              [ path_str W exe; "set-target"; "--solution"; "C:\P\S.sln";
                "--amsnetid"; "5.22.157.86.1.1";
                "--tcversion"; "3.1.4026.17" ])
           300 (path_str W (Parent exe)))
        (trace
           (call_tool W "twincat_set_target"
              [ ("solutionPath", PyStr "C:\P\S.sln");
                ("amsNetId", PyStr "5.22.157.86.1.1");
                ("tcVersion", PyStr "3.1.4026.17") ])).
Proof.
  intros Htool Hvalid Hexe.
  assert (Hspawn : forall tool_name a,
             known_tool tool_name = true ->
             In (spawn_of W exe (cli_command tool_name)
                   (tool_args tool_name a))
                (trace (call_tool W tool_name a))).
  { intros tool_name a Hknown. rewrite call_tool_trace, Hknown.
    destruct (run_tc_automation_trace W exe (cli_command tool_name)
                (tool_args tool_name a) Hexe) as (parses & -> & _).
    apply in_or_app. right. now left. }
  split; [|split; [|split]].
  - clear Hspawn. unfold list_tools in Htool. cbn [In] in Htool.
    repeat (destruct Htool as [<-|Htool]); try contradiction;
      split_valid Hvalid; unfold uniform_argv;
      cbn [flat_map properties inputSchema solutionPath_property tokens
             prop_type String.eqb Ascii.eqb Bool.eqb];
      destruct (dict_lookup "solutionPath" arguments)
        as [[| | | | path | |]|]; try discriminate;
      exists path; eexists; (split; reflexivity).
  - specialize (Hspawn (name tool) arguments (known_tool_name tool Htool)).
    unfold spawn_of, command_line in Hspawn.
    now rewrite (tool_args_uniform tool arguments Htool Hvalid) in Hspawn.
  - exact (Hspawn "twincat_build" _ eq_refl).
  - exact (Hspawn "twincat_set_target" _ eq_refl).
Qed.

Lemma argument_builders_uniform_witness :
  In (Spawn
        [ PyStr Sample.release_exe; PyStr "deploy"; PyStr "--solution";
          PyStr "C:\P\S.sln"; PyStr "--amsnetid"; PyStr "5.22.157.86.1.1";
          PyStr "--plc"; PyStr "Main"; PyStr "--dry-run" ]
        300 Sample.release_dir)
     (trace
        (call_tool
           (Sample.world Sample.everywhere Sample.timed_out Sample.not_json)
           "twincat_deploy"
           [ ("dryRun", PyBool true); ("plcName", PyStr "Main");
             ("tcVersion", PyStr ""); ("skipBuild", PyBool false);
             ("amsNetId", PyStr "5.22.157.86.1.1");
             ("solutionPath", PyStr "C:\P\S.sln") ])).
Proof.
  refine (proj1 (proj2 (argument_builders_uniform
                   (Sample.world Sample.everywhere Sample.timed_out
                      Sample.not_json)
                   (nth 6 list_tools (mkTool "" "" (mkSchema "" [] [])))
                   [ ("dryRun", PyBool true); ("plcName", PyStr "Main");
                     ("tcVersion", PyStr ""); ("skipBuild", PyBool false);
                     ("amsNetId", PyStr "5.22.157.86.1.1");
                     ("solutionPath", PyStr "C:\P\S.sln") ]
                   release_build _ eq_refl eq_refl))).
  do 6 right. left. reflexivity.
Defined.

(** C3, as stated, fails: a deployment called with [dryRun] true whose
    report lists a step without a [dryRun] field of its own is rendered
    with that step bare; the text holds the dry-run prefix of the headline
    and no dry-run note on the step. *)
Lemma call_tool_deploy_dry_run_step_not_annotated :
  dict_lookup "dryRun"
    [ ("solutionPath", PyStr "C:\P\S.sln");
      ("amsNetId", PyStr "5.22.157.86.1.1"); ("dryRun", PyBool true) ]
  = Some (PyBool true)
  /\ outcome_of
       (call_tool
          (Sample.world Sample.everywhere
             (Sample.printed Sample.one_step_text "")
             (Return Sample.one_step_report))
          "twincat_deploy"
          [ ("solutionPath", PyStr "C:\P\S.sln");
            ("amsNetId", PyStr "5.22.157.86.1.1"); ("dryRun", PyBool true) ])
     = Return
         [ mkTextContent "text"
             ("üîç DRY RUN: ‚úÖ Deployment successful" ++ nl ++ nl
                ++ "Target: 5.22.157.86.1.1" ++ nl
                ++ "Deployed PLCs: " ++ nl ++ nl
                ++ "üìã Deployment Steps:" ++ nl
                ++ "  1. Build solution" ++ nl) ]
  /\ index 0 "(dry run)"
       ("üîç DRY RUN: ‚úÖ Deployment successful" ++ nl ++ nl
          ++ "Target: 5.22.157.86.1.1" ++ nl
          ++ "Deployed PLCs: " ++ nl ++ nl
          ++ "üìã Deployment Steps:" ++ nl
          ++ "  1. Build solution" ++ nl)
     = None.
Proof. split; [|split]; reflexivity. Qed.

(** C3, amended.  For a [twincat_deploy] call with [dryRun] true that
    yields an envelope with a truthy [success] and a list of steps, each an
    object: the headline of the text carries the dry-run prefix, the steps
    come in their order, and a step carries the note " (dry run)" exactly
    when its own [dryRun] field is truthy.  The argument vector of the
    spawned process ends with the bare flag [--dry-run]. *)
Theorem call_tool_deploy_dry_run (W : World) (arguments : dict) (exe : Path)
    (cp : CompletedProcess) (d : dict) (steps : list dict)
    (joined : string) :
  dict_lookup "dryRun" arguments = Some (PyBool true) ->
  locate (path_exists W) TC_AUTOMATION_PATHS = Return (Some exe) ->
  subprocess_run W (command_line W exe "deploy" (deploy_args arguments)) 300
    (path_str W (Parent exe)) = Return cp ->
  py_strip (stdout cp) <> "" ->
  json_loads W (stdout cp) = Return (PyDict d) ->
  truthy (dict_get d "success" PyNone) = true ->
  dict_lookup "steps" d = Some (PyList (map PyDict steps)) ->
  py_join ", " (dict_get d "deployedPlcs" (PyList [])) = Return joined ->
  outcome_of (call_tool W "twincat_deploy" arguments) =
    Return
      [ mkTextContent "text"
          ("üîç DRY RUN: ‚úÖ "
             ++ py_str W (dict_get d "message" (PyStr "Deployment successful"))
             ++ nl ++ nl
             ++ "Target: "
             ++ py_str W
                  (dict_get d "targetNetId"
                     (dict_get arguments "amsNetId" (PyStr "")))
             ++ nl
             ++ "Deployed PLCs: " ++ joined ++ nl ++ nl
             ++ (match steps with
                 | [] => ""
                 | _ :: _ => "üìã Deployment Steps:" ++ nl
                 end)
             ++ String.concat "" (map (step_text W) steps)) ]
  /\ (exists before,
        deploy_args arguments = (before ++ [PyStr "--dry-run"])%list)
  /\ In (Spawn (command_line W exe "deploy" (deploy_args arguments)) 300
           (path_str W (Parent exe)))
        (trace (call_tool W "twincat_deploy" arguments)).
Proof.
  intros Hdry Hexe Hrun Hout Hjson Hsuccess Hsteps Hjoin.
  pose proof (run_tc_automation_parsed W exe "deploy" (deploy_args arguments)
                cp (PyDict d) Hexe Hrun Hout Hjson) as Hbridge.
  split; [|split].
  - unfold call_tool. cbn [String.eqb Ascii.eqb Bool.eqb].
    rewrite (respond_return _ _ (PyDict d)); [|now rewrite Hbridge].
    unfold render_deploy, py_get, rbind at 1 2 3 4 5.
    rewrite Hsuccess. unfold rbind at 1. rewrite Hjoin.
    rewrite (dict_get_found arguments "dryRun" _ _ Hdry),
      (dict_get_found d "steps" _ _ Hsteps).
    cbn [truthy].
    destruct steps as [|step rest].
    + cbn [map]. unfold rbind. cbn [map String.concat].
      rewrite !append_assoc, ?append_nil_r. reflexivity.
    + unfold py_getitem, py_iter. rewrite Hsteps.
      change (truthy (PyList (map PyDict (step :: rest)))) with true.
      cbv iota. cbn [rbind]. rewrite for_each_steps. cbn [rbind].
      rewrite !append_assoc. reflexivity.
  - unfold deploy_args.
    rewrite (extend_if_app (dict_get arguments "dryRun" _)),
      (dict_get_found arguments "dryRun" _ _ Hdry).
    cbn [truthy]. now eexists.
  - rewrite call_tool_trace. change (known_tool "twincat_deploy") with true.
    cbv iota. change (cli_command "twincat_deploy") with "deploy".
    change (tool_args "twincat_deploy" arguments)
      with (deploy_args arguments).
    rewrite Hbridge. apply in_or_app. right. now left.
Qed.

Lemma call_tool_deploy_dry_run_witness :
  outcome_of
    (call_tool
       (Sample.world Sample.everywhere
          (Sample.printed Sample.two_step_text "")
          (Return (PyDict Sample.two_step_report)))
       "twincat_deploy"
       [ ("solutionPath", PyStr "C:\P\S.sln");
         ("amsNetId", PyStr "5.22.157.86.1.1"); ("dryRun", PyBool true) ])
  = Return
      [ mkTextContent "text"
          ("üîç DRY RUN: ‚úÖ Deployment successful" ++ nl ++ nl
             ++ "Target: 5.22.157.86.1.1" ++ nl
             ++ "Deployed PLCs: " ++ nl ++ nl
             ++ "üìã Deployment Steps:" ++ nl
             ++ "  1. Build solution" ++ nl
             ++ "  2. Activate configuration (dry run)" ++ nl) ].
Proof.
  refine (proj1 (call_tool_deploy_dry_run
                   (Sample.world Sample.everywhere
                      (Sample.printed Sample.two_step_text "")
                      (Return (PyDict Sample.two_step_report)))
                   [ ("solutionPath", PyStr "C:\P\S.sln");
                     ("amsNetId", PyStr "5.22.157.86.1.1");
                     ("dryRun", PyBool true) ]
                   release_build
                   (mkCompleted 0 Sample.two_step_text "")
                   Sample.two_step_report Sample.two_steps ""
                   eq_refl eq_refl eq_refl _ eq_refl eq_refl eq_refl
                   eq_refl)).
  vm_compute. discriminate.
Defined.

(** ** Further properties of the dispatcher and the bridge *)

(** A name outside the catalog is answered with the text "Unknown tool: "
    and the name, and nothing is probed, spawned or parsed. *)
Theorem call_tool_unknown_name (W : World) (tool_name : string)
    (arguments : dict) :
  ~ In tool_name (map name list_tools) ->
  call_tool W tool_name arguments =
    (Return [mkTextContent "text" ("Unknown tool: " ++ tool_name)], []).
Proof.
  intros Hname. rewrite tool_names in Hname. unfold call_tool.
  repeat match goal with
         | |- context [if tool_name =? ?known then _ else _] =>
             destruct (String.eqb_spec tool_name known) as [->|_];
             [exfalso; apply Hname; simpl; tauto|]
         end.
  reflexivity.
Qed.

Lemma call_tool_unknown_name_witness :
  call_tool (Sample.world Sample.everywhere Sample.timed_out Sample.not_json)
    "twincat_format" [("solutionPath", PyStr "C:\P\S.sln")]
  = (Return [mkTextContent "text" "Unknown tool: twincat_format"], []).
Proof.
  apply (call_tool_unknown_name
           (Sample.world Sample.everywhere Sample.timed_out Sample.not_json)
           "twincat_format").
  vm_compute. intros H.
  repeat (destruct H as [H|H]; [discriminate H|]). exact H.
Defined.







(** The exit code and the standard error of the process play no part when
    the standard output parses: whatever they are, the parsed document is
    returned as it is. *)
Theorem run_tc_automation_ignores_exit_code (W : World) (command : string)
    (args : list pyval) (exe : Path) (rc : Z) (out err : string)
    (v : pyval) :
  locate (path_exists W) TC_AUTOMATION_PATHS = Return (Some exe) ->
  subprocess_run W (command_line W exe command args) 300
    (path_str W (Parent exe)) = Return (mkCompleted rc out err) ->
  py_strip out <> "" ->
  json_loads W out = Return v ->
  outcome_of (run_tc_automation W command args) = Return v.
Proof.
  intros Hexe Hrun Hout Hjson.
  now rewrite (run_tc_automation_parsed W exe command args _ v Hexe Hrun
                 Hout Hjson).
Qed.

Lemma run_tc_automation_ignores_exit_code_witness :
  outcome_of
    (run_tc_automation
       (Sample.world Sample.everywhere
          (Return (mkCompleted 3 Sample.success_text "fatal: crashed"))
          (Return (PyDict [("success", PyBool true)])))
       "build" [PyStr "--solution"; PyStr "C:\P\S.sln"])
  = Return (PyDict [("success", PyBool true)]).
Proof.
  refine (run_tc_automation_ignores_exit_code
            (Sample.world Sample.everywhere
               (Return (mkCompleted 3 Sample.success_text "fatal: crashed"))
               (Return (PyDict [("success", PyBool true)])))
            "build" [PyStr "--solution"; PyStr "C:\P\S.sln"]
            release_build 3 Sample.success_text "fatal: crashed" _
            eq_refl eq_refl _ eq_refl).
  vm_compute. discriminate.
Defined.

(** A tool call spawns at most one process and parses at most once.  An
    unknown name makes no call.  A known tool probes the candidates in
    order.  When a probe raises, its exception leaves [call_tool] and
    nothing is spawned, even if a later candidate exists; when every probe
    says no, the four probes are all.  Otherwise the one spawn runs the
    first existing candidate, with its path as the first token and the
    subcommand of the tool as the second, under the timeout of 300 seconds,
    in the directory of the executable; [json.loads] is called after it
    only when the process ended with standard output that is not blank,
    and on that output untrimmed. *)
Theorem call_tool_calls (W : World) (tool_name : string) (arguments : dict) :
  (known_tool tool_name = false
   /\ trace (call_tool W tool_name arguments) = [])
  \/ (exists e,
        known_tool tool_name = true
        /\ locate (path_exists W) TC_AUTOMATION_PATHS = Raise e
        /\ call_tool W tool_name arguments = (Raise e, probes W)
        /\ forall ev, In ev (probes W) -> exists p, ev = Probe p)
  \/ (known_tool tool_name = true
      /\ locate (path_exists W) TC_AUTOMATION_PATHS = Return None
      /\ trace (call_tool W tool_name arguments) =
           map Probe TC_AUTOMATION_PATHS)
  \/ exists exe,
       known_tool tool_name = true
       /\ locate (path_exists W) TC_AUTOMATION_PATHS = Return (Some exe)
       /\ In exe TC_AUTOMATION_PATHS
       /\ path_exists W exe = Return true
       /\ (trace (call_tool W tool_name arguments) =
             (probes W
                ++ [Spawn
                      (PyStr (path_str W exe) :: PyStr (cli_command tool_name)
                         :: tool_args tool_name arguments)
                      300 (path_str W (Parent exe))])%list
           \/ exists cp,
                subprocess_run W
                  (PyStr (path_str W exe) :: PyStr (cli_command tool_name)
                     :: tool_args tool_name arguments)
                  300 (path_str W (Parent exe)) = Return cp
                /\ py_strip (stdout cp) <> ""
                /\ trace (call_tool W tool_name arguments) =
                     (probes W
                        ++ [Spawn
                              (PyStr (path_str W exe)
                                 :: PyStr (cli_command tool_name)
                                 :: tool_args tool_name arguments)
                              300 (path_str W (Parent exe));
                            Loads (stdout cp)])%list).
Proof.
  destruct (known_tool tool_name) eqn:Hknown;
    [right|left; split; [reflexivity|];
           now rewrite call_tool_trace, Hknown].
  destruct (locate (path_exists W) TC_AUTOMATION_PATHS) as [[exe|]|e] eqn:H.
  - right. right. exists exe. rewrite call_tool_trace, Hknown.
    destruct (locate_some W _ _ H) as [Hin Hexists].
    do 4 (split; [trivial|]).
    set (command := cli_command tool_name).
    set (args := tool_args tool_name arguments).
    fold (command_line W exe command args).
    destruct (subprocess_run W (command_line W exe command args) 300
                (path_str W (Parent exe))) as [cp|e] eqn:Hrun.
    + destruct (string_dec (py_strip (stdout cp)) "") as [Hout|Hout].
      * left. now rewrite (run_tc_automation_blank W _ _ _ _ H Hrun Hout).
      * right. exists cp. do 2 (split; [trivial|]).
        destruct (json_loads W (stdout cp)) as [v|e] eqn:Hjson.
        -- now rewrite
             (run_tc_automation_parsed W _ _ _ _ _ H Hrun Hout Hjson).
        -- now rewrite
             (run_tc_automation_unparsed W _ _ _ _ _ H Hrun Hout Hjson).
    + left. now rewrite (run_tc_automation_raised W _ _ _ _ H Hrun).
  - right. left. rewrite call_tool_trace, Hknown.
    split; [reflexivity|]. split; [reflexivity|].
    now rewrite (run_tc_automation_missing W _ _ H).
  - left. exists e. do 2 (split; [reflexivity|]). split.
    + assert (Hraise : forall command args render,
                 bind (run_tc_automation W command args)
                      (fun r => respond (render r)) = (Raise e, probes W)).
      { intros command args render.
        now rewrite (run_tc_automation_probe_raises W command args e H). }
      revert Hknown. unfold known_tool, call_tool. rewrite tool_names.
      cbn [existsb].
      repeat (destruct (tool_name =? _); [intros _; apply Hraise|]).
      discriminate.
    + intros ev Hin. unfold probes in Hin. apply in_map_iff in Hin.
      destruct Hin as (p & <- & _). now exists p.
Qed.

(** The envelope of a failed run: [success] false, the message, and the
    standard error when the output was not JSON. *)
Lemma bridge_failure_envelope (W : World) exe command args :
  locate (path_exists W) TC_AUTOMATION_PATHS = Return (Some exe) ->
  bridge_fails W exe command args ->
  exists extra,
    outcome_of (run_tc_automation W command args) =
      Return (PyDict
        (("success", PyBool false)
           :: ("errorMessage",
               PyStr (bridge_failure_message W exe command args))
           :: extra))
    /\ (extra = [] \/ exists err, extra = [("stderr", PyStr err)]).
Proof.
  intros H. unfold bridge_fails, bridge_failure_message, caught_message.
  destruct (subprocess_run W (command_line W exe command args) 300
              (path_str W (Parent exe))) as [cp|e] eqn:Hrun.
  - intros [Hout|[e Hjson]].
    + exists []. rewrite (run_tc_automation_blank W _ _ _ _ H Hrun Hout), Hout.
      split; [reflexivity|now left].
    + destruct (string_dec (py_strip (stdout cp)) "") as [Hout|Hout].
      * exists [].
        rewrite (run_tc_automation_blank W _ _ _ _ H Hrun Hout), Hout.
        split; [reflexivity|now left].
      * rewrite (run_tc_automation_unparsed W _ _ _ _ _ H Hrun Hout Hjson),
          Hjson.
        apply String.eqb_neq in Hout. rewrite Hout.
        destruct (exn_type e);
          try (exists []; split; [reflexivity|now left]).
        eexists. split; [reflexivity|]. right. now eexists.
  - intros _. exists [].
    rewrite (run_tc_automation_raised W _ _ _ _ H Hrun).
    split; [reflexivity|now left].
Qed.

(** For the clean, set-target, activate, restart and deploy tools the
    message of a failed run never reaches the text.  The bridge writes it
    under [errorMessage] and these branches read [error], so a timeout, a
    spawn failure, an empty or an unparsable output all give the same
    "... failed: Unknown error". *)
Theorem call_tool_failure_message_lost (W : World) (tool_name : string)
    (arguments : dict) (exe : Path) :
  In tool_name [ "twincat_clean"; "twincat_set_target"; "twincat_activate";
                 "twincat_restart"; "twincat_deploy" ] ->
  locate (path_exists W) TC_AUTOMATION_PATHS = Return (Some exe) ->
  bridge_fails W exe (cli_command tool_name)
    (tool_args tool_name arguments) ->
  outcome_of (call_tool W tool_name arguments) =
    Return [mkTextContent "text" (unknown_error_text tool_name)].
Proof.
  intros Hname Hexe Hfails.
  destruct (bridge_failure_envelope W exe _ _ Hexe Hfails)
    as (extra & Henvelope & Hextra).
  cbn [In] in Hname.
  repeat (destruct Hname as [<-|Hname]); try contradiction;
    unfold call_tool; cbn [String.eqb Ascii.eqb Bool.eqb];
    rewrite (respond_return _ _ _ Henvelope);
    destruct Hextra as [->|[err ->]]; reflexivity.
Qed.

Lemma call_tool_failure_message_lost_witness :
  outcome_of
    (call_tool
       (Sample.world Sample.everywhere Sample.timed_out Sample.not_json)
       "twincat_deploy"
       [ ("solutionPath", PyStr "C:\P\S.sln");
         ("amsNetId", PyStr "5.22.157.86.1.1") ])
  = Return
      [mkTextContent "text" ("‚ùå Deployment failed: Unknown error" ++ nl)].
Proof.
  refine (call_tool_failure_message_lost
            (Sample.world Sample.everywhere Sample.timed_out Sample.not_json)
            "twincat_deploy"
            [ ("solutionPath", PyStr "C:\P\S.sln");
              ("amsNetId", PyStr "5.22.157.86.1.1") ]
            release_build _ eq_refl _).
  - do 4 right. left. reflexivity.
  - exact I.
Defined.

(** The build tool does show the message of a failed run: after the line
    "Build failed" comes "Error: " and the message, unless the message is
    the empty string (an exception that prints as nothing). *)
Theorem call_tool_build_reports_bridge_failure (W : World)
    (arguments : dict) (exe : Path) :
  locate (path_exists W) TC_AUTOMATION_PATHS = Return (Some exe) ->
  bridge_fails W exe "build" (build_args arguments) ->
  outcome_of (call_tool W "twincat_build" arguments) =
    Return
      [ mkTextContent "text"
          ("‚ùå Build failed" ++ nl
             ++ (if bridge_failure_message W exe "build"
                      (build_args arguments) =? ""
                 then ""
                 else nl ++ "Error: "
                        ++ bridge_failure_message W exe "build"
                             (build_args arguments) ++ nl)) ].
Proof.
  intros Hexe Hfails.
  destruct (bridge_failure_envelope W exe _ _ Hexe Hfails)
    as (extra & Henvelope & Hextra).
  unfold call_tool. cbn [String.eqb Ascii.eqb Bool.eqb].
  rewrite (respond_return _ _ _ Henvelope).
  destruct Hextra as [->|[err ->]];
    unfold render_build, issue_list, py_get, py_getitem, dict_get;
    cbn [dict_lookup String.eqb Ascii.eqb Bool.eqb rbind truthy];
    destruct (bridge_failure_message W exe "build" (build_args arguments)
              =? ""); reflexivity.
Qed.

Lemma call_tool_build_reports_bridge_failure_witness :
  outcome_of
    (call_tool
       (Sample.world Sample.everywhere Sample.timed_out Sample.not_json)
       "twincat_build" [("solutionPath", PyStr "C:\P\S.sln")])
  = Return
      [ mkTextContent "text"
          ("‚ùå Build failed" ++ nl ++ nl
             ++ "Error: Command timed out after 5 minutes" ++ nl) ].
Proof.
  exact (call_tool_build_reports_bridge_failure
           (Sample.world Sample.everywhere Sample.timed_out Sample.not_json)
           [("solutionPath", PyStr "C:\P\S.sln")] release_build eq_refl I).
Defined.

(** The information tool shows the message of a failed run as its error
    line.  When the message is the empty string the envelope counts as no
    error at all and the information view is printed, every field
    "Unknown". *)
Theorem call_tool_get_info_reports_bridge_failure (W : World)
    (arguments : dict) (exe : Path) :
  locate (path_exists W) TC_AUTOMATION_PATHS = Return (Some exe) ->
  bridge_fails W exe "info" (get_info_args arguments) ->
  outcome_of (call_tool W "twincat_get_info" arguments) =
    Return
      [ mkTextContent "text"
          (if bridge_failure_message W exe "info" (get_info_args arguments)
              =? ""
           then "üìã TwinCAT Project Info" ++ nl
                  ++ "Solution: Unknown" ++ nl
                  ++ "TwinCAT Version: Unknown " ++ nl
                  ++ "Visual Studio Version: Unknown" ++ nl
                  ++ "Target Platform: Unknown" ++ nl
                  ++ nl
                  ++ "PLC Projects:" ++ nl
                  ++ "  (none found)" ++ nl
           else "‚ùå Error: "
                  ++ bridge_failure_message W exe "info"
                       (get_info_args arguments)) ].
Proof.
  intros Hexe Hfails.
  destruct (bridge_failure_envelope W exe _ _ Hexe Hfails)
    as (extra & Henvelope & Hextra).
  unfold call_tool. cbn [String.eqb Ascii.eqb Bool.eqb].
  rewrite (respond_return _ _ _ Henvelope).
  destruct Hextra as [->|[err ->]];
    unfold render_get_info, py_get, py_getitem, dict_get;
    cbn [dict_lookup String.eqb Ascii.eqb Bool.eqb rbind truthy];
    destruct (bridge_failure_message W exe "info" (get_info_args arguments)
              =? ""); reflexivity.
Qed.

Lemma call_tool_get_info_reports_bridge_failure_witness :
  outcome_of
    (call_tool
       (Sample.world Sample.everywhere
          (Sample.printed "" "License check failed") Sample.not_json)
       "twincat_get_info" [("solutionPath", PyStr "C:\P\S.sln")])
  = Return [mkTextContent "text" "‚ùå Error: License check failed"].
Proof.
  refine (call_tool_get_info_reports_bridge_failure
            (Sample.world Sample.everywhere
               (Sample.printed "" "License check failed") Sample.not_json)
            [("solutionPath", PyStr "C:\P\S.sln")] release_build eq_refl _).
  left. reflexivity.
Defined.

Lemma respond_one_text (result : M pyval) (render : pyval -> outcome string)
    (content : list TextContent) :
  outcome_of (bind result (fun r => respond (render r))) = Return content ->
  exists output, content = [mkTextContent "text" output].
Proof.
  destruct result as [[v|e] t]; [|discriminate].
  unfold bind, respond, lift, ret. destruct (render v) as [output|e];
    [|discriminate].
  intros H. injection H as <-. now exists output.
Qed.

(** Whatever the tool and the arguments, when [call_tool] returns it
    returns exactly one content item, of type "text". *)
Theorem call_tool_answers_one_text (W : World) (tool_name : string)
    (arguments : dict) (content : list TextContent) :
  outcome_of (call_tool W tool_name arguments) = Return content ->
  exists output, content = [mkTextContent "text" output].
Proof.
  unfold call_tool.
  repeat (destruct (tool_name =? _); [apply respond_one_text|]).
  intros H. injection H as <-. now eexists.
Qed.

Lemma call_tool_answers_one_text_witness :
  exists output,
    [mkTextContent "text" "‚ùå Clean failed: Unknown error"]
    = [mkTextContent "text" output].
Proof.
  exact (call_tool_answers_one_text
           (Sample.world Sample.everywhere (Sample.printed "" "")
              Sample.not_json)
           "twincat_clean" [("solutionPath", PyStr "C:\P\S.sln")] _
           eq_refl).
Defined.

(** ** Properties of the rendering *)

(** A loop whose body gives a line for every object adds those lines in
    order. *)
Lemma for_each_lines (body : pyval -> outcome string) (line : dict -> string)
    (l : list dict) (output : string) :
  (forall x, body (PyDict x) = Return (line x)) ->
  for_each (map PyDict l) body output =
    Return (output ++ String.concat "" (map line l)).
Proof.
  intros Hbody. revert output. induction l as [|x rest IH]; intros output.
  - simpl. now rewrite append_nil_r.
  - cbn [map for_each]. rewrite Hbody. cbn [rbind]. rewrite IH.
    rewrite append_assoc. do 2 f_equal.
    destruct rest; cbn [map String.concat]; [now rewrite append_nil_r|].
    reflexivity.
Qed.

(** A loop stops with the exception of the first item its body refuses. *)
Lemma for_each_raises (body : pyval -> outcome string) (good : list dict)
    (x : pyval) (rest : list pyval) (e : exn) (output : string) :
  (forall g, exists line, body (PyDict g) = Return line) ->
  body x = Raise e ->
  for_each (map PyDict good ++ x :: rest)%list body output = Raise e.
Proof.
  intros Hgood Hx. revert output.
  induction good as [|g good IH]; intros output; cbn [map app for_each].
  - now rewrite Hx.
  - destruct (Hgood g) as [line ->]. cbn [rbind]. apply IH.
Qed.

Lemma issue_list_dicts (W : World) (d : dict)
    (key header file_key : string) (issues : list dict) (output : string) :
  lists_issues d key issues ->
  issue_list W (PyDict d) key header file_key output =
    Return (output ++ issues_text W header file_key issues).
Proof.
  unfold issue_list, py_get, py_getitem, dict_get, issues_text.
  intros [[Habsent ->]|Hlisted]; cbn [rbind].
  - rewrite Habsent. cbn [truthy]. now rewrite append_nil_r.
  - rewrite Hlisted. destruct issues as [|w rest].
    + cbn [map truthy]. now rewrite append_nil_r.
    + change (truthy (PyList (map PyDict (w :: rest)))) with true.
      cbv iota. cbn [py_iter rbind].
      rewrite (for_each_lines (issue_line W file_key)
                 (issue_text W file_key)); [|reflexivity].
      now rewrite append_assoc.
Qed.

Lemma join_items_non_string (i : nat) (names : list string) (x : pyval)
    (rest : list pyval) :
  (forall s, x <> PyStr s) ->
  join_items i (map PyStr names ++ x :: rest)%list =
    Raise (mkExn TypeError
             ("sequence item " ++ string_of_Z (Z.of_nat (i + length names))
                ++ ": expected str instance, " ++ type_name x ++ " found")).
Proof.
  intros Hx. revert i. induction names as [|n names IH]; intros i.
  - cbn [map app length]. rewrite Nat.add_0_r.
    destruct x; try reflexivity. now contradiction (Hx s).
  - cbn [map app length join_items]. rewrite IH, Nat.add_succ_r.
    reflexivity.
Qed.

(** The text of a good build is the summary (or "Build succeeded") and the
    warnings, one line each in the order reported, with absent fields left
    empty.  Errors and an error message in such an envelope are not
    shown. *)
Theorem call_tool_build_success_text (W : World) (arguments : dict)
    (d : dict) (warnings : list dict) :
  outcome_of (run_tc_automation W "build" (build_args arguments)) =
    Return (PyDict d) ->
  truthy (dict_get d "success" PyNone) = true ->
  lists_issues d "warnings" warnings ->
  outcome_of (call_tool W "twincat_build" arguments) =
    Return
      [ mkTextContent "text"
          ("‚úÖ " ++ py_str W (dict_get d "summary" (PyStr "Build succeeded"))
             ++ nl
             ++ issues_text W (nl ++ "‚ö†Ô∏è Warnings:" ++ nl) "fileName"
                  warnings) ].
Proof.
  intros Hbridge Hsuccess Hwarnings.
  unfold call_tool. cbn [String.eqb Ascii.eqb Bool.eqb].
  rewrite (respond_return _ _ _ Hbridge).
  unfold render_build. cbn [py_get rbind]. rewrite Hsuccess.
  rewrite (issue_list_dicts W d _ _ _ warnings _ Hwarnings). cbn [rbind].
  now rewrite !append_assoc.
Qed.

Lemma call_tool_build_success_text_witness :
  outcome_of
    (call_tool
       (Sample.world Sample.everywhere
          (Sample.printed Sample.one_warning_text "")
          (Return (PyDict Sample.one_warning_report)))
       "twincat_build" [("solutionPath", PyStr "C:\P\S.sln")])
  = Return
      [ mkTextContent "text"
          ("‚úÖ Build succeeded with 1 warning" ++ nl
             ++ nl ++ "‚ö†Ô∏è Warnings:" ++ nl
             ++ "  - FB_Axis.TcPOU:7: Unused variable" ++ nl) ].
Proof.
  refine (call_tool_build_success_text
            (Sample.world Sample.everywhere
               (Sample.printed Sample.one_warning_text "")
               (Return (PyDict Sample.one_warning_report)))
            [("solutionPath", PyStr "C:\P\S.sln")]
            Sample.one_warning_report
            [ [ ("fileName", PyStr "FB_Axis.TcPOU"); ("line", PyInt 7);
                ("description", PyStr "Unused variable") ] ]
            eq_refl eq_refl _).
  right. reflexivity.
Defined.

(** The text of a failed build, in this order: the line "Build failed";
    "Error: " and the message when the envelope has a truthy
    [errorMessage]; the errors under their header; the warnings under
    theirs.  Each entry is one line, file, line number and description,
    with absent fields left empty. *)
Theorem call_tool_build_failure_text (W : World) (arguments : dict)
    (d : dict) (errors warnings : list dict) :
  outcome_of (run_tc_automation W "build" (build_args arguments)) =
    Return (PyDict d) ->
  truthy (dict_get d "success" PyNone) = false ->
  lists_issues d "errors" errors ->
  lists_issues d "warnings" warnings ->
  outcome_of (call_tool W "twincat_build" arguments) =
    Return
      [ mkTextContent "text"
          ("‚ùå Build failed" ++ nl
             ++ (if truthy (dict_get d "errorMessage" PyNone) then
                   nl ++ "Error: "
                     ++ py_str W (dict_get d "errorMessage" PyNone) ++ nl
                 else "")
             ++ issues_text W (nl ++ "üî¥ Errors:" ++ nl) "fileName" errors
             ++ issues_text W (nl ++ "‚ö†Ô∏è Warnings:" ++ nl) "fileName"
                  warnings) ].
Proof.
  intros Hbridge Hsuccess Herrors Hwarnings.
  unfold call_tool. cbn [String.eqb Ascii.eqb Bool.eqb].
  rewrite (respond_return _ _ _ Hbridge).
  unfold render_build. cbn [py_get rbind]. rewrite Hsuccess.
  assert (Hmessage :
    (if truthy (dict_get d "errorMessage" PyNone) then
       shown <~ py_getitem (PyDict d) "errorMessage" ;;
       Return (("‚ùå Build failed" ++ nl) ++ nl ++ "Error: "
                 ++ py_str W shown ++ nl)
     else Return ("‚ùå Build failed" ++ nl))
    = Return ("‚ùå Build failed" ++ nl
                ++ (if truthy (dict_get d "errorMessage" PyNone) then
                      nl ++ "Error: "
                        ++ py_str W (dict_get d "errorMessage" PyNone) ++ nl
                    else ""))).
  { unfold py_getitem, dict_get.
    destruct (dict_lookup "errorMessage" d) as [shown|]; [|reflexivity].
    destruct (truthy shown); reflexivity. }
  rewrite Hmessage. cbn [rbind].
  rewrite (issue_list_dicts W d _ _ _ errors _ Herrors). cbn [rbind].
  rewrite (issue_list_dicts W d _ _ _ warnings _ Hwarnings). cbn [rbind].
  now rewrite !append_assoc.
Qed.

Lemma call_tool_build_failure_text_witness :
  outcome_of
    (call_tool
       (Sample.world Sample.everywhere
          (Sample.printed Sample.one_error_text "")
          (Return (PyDict Sample.one_error_report)))
       "twincat_build" [("solutionPath", PyStr "C:\P\S.sln")])
  = Return
      [ mkTextContent "text"
          ("‚ùå Build failed" ++ nl
             ++ nl ++ "üî¥ Errors:" ++ nl
             ++ "  - MAIN.TcPOU:12: Identifier not defined" ++ nl) ].
Proof.
  refine (call_tool_build_failure_text
            (Sample.world Sample.everywhere
               (Sample.printed Sample.one_error_text "")
               (Return (PyDict Sample.one_error_report)))
            [("solutionPath", PyStr "C:\P\S.sln")]
            Sample.one_error_report
            [ [ ("fileName", PyStr "MAIN.TcPOU"); ("line", PyInt 12);
                ("description", PyStr "Identifier not defined") ] ]
            [] eq_refl eq_refl _ _).
  - right. reflexivity.
  - left. split; reflexivity.
Defined.

(** The text of a failed deployment is "Deployment failed: " with the
    [error] field (or "Unknown error"), then the build errors under their
    header.  The file of an entry is read from its [file] field, not from
    [fileName] as the build tool does. *)
Theorem call_tool_deploy_failure_text (W : World) (arguments : dict)
    (d : dict) (errors : list dict) :
  outcome_of (run_tc_automation W "deploy" (deploy_args arguments)) =
    Return (PyDict d) ->
  truthy (dict_get d "success" PyNone) = false ->
  lists_issues d "errors" errors ->
  outcome_of (call_tool W "twincat_deploy" arguments) =
    Return
      [ mkTextContent "text"
          ("‚ùå Deployment failed: "
             ++ py_str W (dict_get d "error" (PyStr "Unknown error")) ++ nl
             ++ issues_text W (nl ++ "üî¥ Build Errors:" ++ nl) "file"
                  errors) ].
Proof.
  intros Hbridge Hsuccess Herrors.
  unfold call_tool. cbn [String.eqb Ascii.eqb Bool.eqb].
  rewrite (respond_return _ _ _ Hbridge).
  unfold render_deploy. cbn [py_get rbind]. rewrite Hsuccess.
  rewrite (issue_list_dicts W d _ _ _ errors _ Herrors). cbn [rbind].
  now rewrite !append_assoc.
Qed.

Lemma call_tool_deploy_failure_text_witness :
  outcome_of
    (call_tool
       (Sample.world Sample.everywhere
          (Sample.printed Sample.failed_deploy_text "")
          (Return (PyDict Sample.failed_deploy_report)))
       "twincat_deploy"
       [ ("solutionPath", PyStr "C:\P\S.sln");
         ("amsNetId", PyStr "5.22.157.86.1.1") ])
  = Return
      [ mkTextContent "text"
          ("‚ùå Deployment failed: Build failed" ++ nl
             ++ nl ++ "üî¥ Build Errors:" ++ nl
             ++ "  - MAIN.TcPOU:3: Syntax error" ++ nl) ].
Proof.
  refine (call_tool_deploy_failure_text
            (Sample.world Sample.everywhere
               (Sample.printed Sample.failed_deploy_text "")
               (Return (PyDict Sample.failed_deploy_report)))
            [ ("solutionPath", PyStr "C:\P\S.sln");
              ("amsNetId", PyStr "5.22.157.86.1.1") ]
            Sample.failed_deploy_report
            [ [ ("file", PyStr "MAIN.TcPOU"); ("line", PyInt 3);
                ("description", PyStr "Syntax error") ] ]
            eq_refl eq_refl _).
  right. reflexivity.
Defined.

(** A good build whose list of warnings holds an entry that is not an
    object (a plain string, a number) gives no text: the [get] on that
    entry raises [AttributeError], which leaves [call_tool]. *)
Theorem call_tool_build_non_object_warning (W : World) (arguments : dict)
    (d : dict) (good : list dict) (x : pyval) (rest : list pyval) :
  outcome_of (run_tc_automation W "build" (build_args arguments)) =
    Return (PyDict d) ->
  truthy (dict_get d "success" PyNone) = true ->
  dict_lookup "warnings" d = Some (PyList (map PyDict good ++ x :: rest)) ->
  (forall w, x <> PyDict w) ->
  outcome_of (call_tool W "twincat_build" arguments) =
    Raise (mkExn AttributeError
             ("'" ++ type_name x ++ "' object has no attribute 'get'")).
Proof.
  intros Hbridge Hsuccess Hwarnings Hx.
  unfold call_tool. cbn [String.eqb Ascii.eqb Bool.eqb].
  rewrite (respond_return _ _ _ Hbridge).
  unfold render_build. cbn [py_get rbind]. rewrite Hsuccess.
  unfold issue_list, py_get, py_getitem, dict_get. rewrite Hwarnings.
  cbn [rbind py_iter].
  assert (Htruthy : truthy (PyList (map PyDict good ++ x :: rest)) = true)
    by now destruct good.
  rewrite Htruthy.
  rewrite (for_each_raises (issue_line W "fileName") good x rest
             (mkExn AttributeError
                ("'" ++ type_name x ++ "' object has no attribute 'get'"))).
  - reflexivity.
  - intros g. now eexists.
  - destruct x; try reflexivity. now contradiction (Hx entries).
Qed.

Lemma call_tool_build_non_object_warning_witness :
  outcome_of
    (call_tool
       (Sample.world Sample.everywhere
          (Sample.printed Sample.string_warning_text "")
          (Return (PyDict Sample.string_warning_report)))
       "twincat_build" [("solutionPath", PyStr "C:\P\S.sln")])
  = Raise (mkExn AttributeError "'str' object has no attribute 'get'").
Proof.
  refine (call_tool_build_non_object_warning
            (Sample.world Sample.everywhere
               (Sample.printed Sample.string_warning_text "")
               (Return (PyDict Sample.string_warning_report)))
            [("solutionPath", PyStr "C:\P\S.sln")]
            Sample.string_warning_report [] (PyStr "Unused variable") []
            eq_refl eq_refl eq_refl _).
  intros w. discriminate.
Defined.

(** A good deployment whose [deployedPlcs] list holds an entry that is not
    a string gives no text: [join] raises [TypeError] at the first such
    entry, and the exception leaves [call_tool]. *)
Theorem call_tool_deploy_non_string_plc (W : World) (arguments : dict)
    (d : dict) (names : list string) (x : pyval) (rest : list pyval) :
  outcome_of (run_tc_automation W "deploy" (deploy_args arguments)) =
    Return (PyDict d) ->
  truthy (dict_get d "success" PyNone) = true ->
  dict_lookup "deployedPlcs" d =
    Some (PyList (map PyStr names ++ x :: rest)) ->
  (forall s, x <> PyStr s) ->
  outcome_of (call_tool W "twincat_deploy" arguments) =
    Raise (mkExn TypeError
             ("sequence item " ++ string_of_Z (Z.of_nat (length names))
                ++ ": expected str instance, " ++ type_name x ++ " found")).
Proof.
  intros Hbridge Hsuccess Hplcs Hx.
  unfold call_tool. cbn [String.eqb Ascii.eqb Bool.eqb].
  rewrite (respond_return _ _ _ Hbridge).
  unfold render_deploy. cbn [py_get rbind]. rewrite Hsuccess.
  rewrite (dict_get_found d "deployedPlcs" _ _ Hplcs).
  unfold py_join. cbn [py_iter].
  rewrite (join_items_non_string 0 names x rest Hx). reflexivity.
Qed.

Lemma call_tool_deploy_non_string_plc_witness :
  outcome_of
    (call_tool
       (Sample.world Sample.everywhere
          (Sample.printed Sample.numbered_plcs_text "")
          (Return (PyDict Sample.numbered_plcs_report)))
       "twincat_deploy"
       [ ("solutionPath", PyStr "C:\P\S.sln");
         ("amsNetId", PyStr "5.22.157.86.1.1") ])
  = Raise (mkExn TypeError
             "sequence item 1: expected str instance, int found").
Proof.
  refine (call_tool_deploy_non_string_plc
            (Sample.world Sample.everywhere
               (Sample.printed Sample.numbered_plcs_text "")
               (Return (PyDict Sample.numbered_plcs_report)))
            [ ("solutionPath", PyStr "C:\P\S.sln");
              ("amsNetId", PyStr "5.22.157.86.1.1") ]
            Sample.numbered_plcs_report ["Main"] (PyInt 2) []
            eq_refl eq_refl eq_refl _).
  intros s. discriminate.
Defined.

(** The information view lists the PLC projects of the envelope one line
    each, in the order reported, name and AMS port, "Unknown" for an absent
    field; this when the envelope has no truthy [errorMessage] and its
    [plcProjects] is a list of objects that is not empty. *)
Theorem call_tool_get_info_lists_plcs (W : World) (arguments : dict)
    (d : dict) (plc : dict) (plcs : list dict) :
  outcome_of (run_tc_automation W "info" (get_info_args arguments)) =
    Return (PyDict d) ->
  truthy (dict_get d "errorMessage" PyNone) = false ->
  dict_lookup "plcProjects" d = Some (PyList (map PyDict (plc :: plcs))) ->
  outcome_of (call_tool W "twincat_get_info" arguments) =
    Return
      [ mkTextContent "text"
          (info_header W d
             ++ String.concat "" (map (plc_text W) (plc :: plcs))) ].
Proof.
  intros Hbridge Hmessage Hplcs.
  unfold call_tool. cbn [String.eqb Ascii.eqb Bool.eqb].
  rewrite (respond_return _ _ _ Hbridge).
  unfold render_get_info. cbn [py_get rbind]. rewrite Hmessage.
  rewrite (dict_get_found d "plcProjects" _ _ Hplcs).
  change (truthy (PyList (map PyDict (plc :: plcs)))) with true.
  cbv iota. cbn [py_iter rbind].
  rewrite (for_each_lines (plc_line W) (plc_text W)); [|reflexivity].
  reflexivity.
Qed.

Lemma call_tool_get_info_lists_plcs_witness :
  outcome_of
    (call_tool
       (Sample.world Sample.everywhere
          (Sample.printed Sample.two_plc_text "")
          (Return (PyDict Sample.two_plc_report)))
       "twincat_get_info" [("solutionPath", PyStr "C:\P\S.sln")])
  = Return
      [ mkTextContent "text"
          ("üìã TwinCAT Project Info" ++ nl
             ++ "Solution: C:\P\S.sln" ++ nl
             ++ "TwinCAT Version: 3.1.4024.56 (pinned)" ++ nl
             ++ "Visual Studio Version: Unknown" ++ nl
             ++ "Target Platform: Unknown" ++ nl
             ++ nl
             ++ "PLC Projects:" ++ nl
             ++ "  - Main (AMS Port: 851)" ++ nl
             ++ "  - Safety (AMS Port: Unknown)" ++ nl) ].
Proof.
  exact (call_tool_get_info_lists_plcs
           (Sample.world Sample.everywhere
              (Sample.printed Sample.two_plc_text "")
              (Return (PyDict Sample.two_plc_report)))
           [("solutionPath", PyStr "C:\P\S.sln")]
           Sample.two_plc_report
           [ ("name", PyStr "Main"); ("amsPort", PyInt 851) ]
           [ [ ("name", PyStr "Safety") ] ]
           eq_refl eq_refl eq_refl).
Defined.

(** When the report of a target change names no new target, the text
    shows the AMS Net ID the call asked for (the empty string when the call
    had none); the previous target is "Unknown" when it is not reported. *)
Theorem call_tool_set_target_echoes_request (W : World) (arguments : dict)
    (d : dict) :
  outcome_of (run_tc_automation W "set-target" (set_target_args arguments)) =
    Return (PyDict d) ->
  truthy (dict_get d "success" PyNone) = true ->
  dict_lookup "newTarget" d = None ->
  outcome_of (call_tool W "twincat_set_target" arguments) =
    Return
      [ mkTextContent "text"
          ("‚úÖ "
             ++ py_str W (dict_get d "message" (PyStr "Target set successfully"))
             ++ nl
             ++ "Previous target: "
             ++ py_str W (dict_get d "previousTarget" (PyStr "Unknown")) ++ nl
             ++ "New target: "
             ++ py_str W (dict_get arguments "amsNetId" (PyStr ""))) ].
Proof.
  intros Hbridge Hsuccess Hnew.
  unfold call_tool. cbn [String.eqb Ascii.eqb Bool.eqb].
  rewrite (respond_return _ _ _ Hbridge).
  unfold render_set_target. cbn [py_get rbind]. rewrite Hsuccess.
  rewrite (dict_get_missing d "newTarget" _ Hnew).
  now rewrite !append_assoc.
Qed.

Lemma call_tool_set_target_echoes_request_witness :
  outcome_of
    (call_tool
       (Sample.world Sample.everywhere
          (Sample.printed Sample.target_text "")
          (Return (PyDict Sample.target_report)))
       "twincat_set_target"
       [ ("solutionPath", PyStr "C:\P\S.sln");
         ("amsNetId", PyStr "5.22.157.86.1.1") ])
  = Return
      [ mkTextContent "text"
          ("‚úÖ Target set successfully" ++ nl
             ++ "Previous target: 127.0.0.1.1.1" ++ nl
             ++ "New target: 5.22.157.86.1.1") ].
Proof.
  exact (call_tool_set_target_echoes_request
           (Sample.world Sample.everywhere
              (Sample.printed Sample.target_text "")
              (Return (PyDict Sample.target_report)))
           [ ("solutionPath", PyStr "C:\P\S.sln");
             ("amsNetId", PyStr "5.22.157.86.1.1") ]
           Sample.target_report eq_refl eq_refl eq_refl).
Defined.

(** ** The catalog *)

(** The catalog is well formed and agrees with the dispatcher: the names
    of its tools are distinct; every tool requires [solutionPath]; every
    property a tool requires is among the properties it declares, and is a
    string without a default; every boolean property carries a boolean
    default; and [call_tool] has a branch for each name, so that a call of
    a catalog tool starts by probing the first candidate path. *)
Theorem list_tools_well_formed (W : World) (tool : Tool) (arguments : dict) :
  In tool list_tools ->
  NoDup (map name list_tools)
  /\ In "solutionPath" (required (inputSchema tool))
  /\ (forall property,
        In property (required (inputSchema tool)) ->
        exists text,
          In (property, mkProperty "string" text None)
             (properties (inputSchema tool)))
  /\ (forall property schema,
        In (property, schema) (properties (inputSchema tool)) ->
        prop_type schema = "boolean" ->
        exists b, prop_default schema = Some (PyBool b))
  /\ hd_error (trace (call_tool W (name tool) arguments)) =
       Some (Probe release_build).
Proof.
  intros Htool. split; [|split; [|split; [|split]]].
  - rewrite tool_names.
    repeat (constructor; [simpl; intros H;
                          repeat (destruct H as [H|H]; [discriminate H|]);
                          exact H|]).
    constructor.
  - unfold list_tools in Htool. cbn [In] in Htool.
    repeat (destruct Htool as [<-|Htool]); try contradiction;
      now left.
  - unfold list_tools in Htool. cbn [In] in Htool.
    repeat (destruct Htool as [<-|Htool]); try contradiction;
      intros property Hreq; cbn [required inputSchema In] in Hreq;
      repeat (destruct Hreq as [<-|Hreq]); try contradiction;
      eexists; cbn [properties inputSchema In solutionPath_property];
      first [left; reflexivity|right; left; reflexivity].
  - unfold list_tools in Htool. cbn [In] in Htool.
    repeat (destruct Htool as [<-|Htool]); try contradiction;
      intros property schema Hin Hbool;
      cbn [properties inputSchema In solutionPath_property
             tcVersion_property] in Hin;
      repeat (destruct Hin as [Hin|Hin];
              [injection Hin as <- <-;
               first [discriminate Hbool|now eexists]|]);
      contradiction.
  - rewrite call_tool_trace, (known_tool_name tool Htool).
    apply run_tc_automation_first_probe.
Qed.

Lemma list_tools_well_formed_witness :
  hd_error
    (trace
       (call_tool
          (Sample.world Sample.nowhere Sample.timed_out Sample.not_json)
          "twincat_restart" []))
  = Some (Probe release_build).
Proof.
  refine (proj2 (proj2 (proj2 (proj2
            (list_tools_well_formed
               (Sample.world Sample.nowhere Sample.timed_out Sample.not_json)
               (nth 5 list_tools (mkTool "" "" (mkSchema "" [] [])))
               [] _))))).
  do 5 right. left. reflexivity.
Defined.
